(** * TLS 1.3 hybrid handshake benchmark: the measurement harness

    A shallow embedding of [src/tls_benchmark/measure_tls.py] (class
    [TLSBenchmark]: [measure_latency], [run_benchmark], [analyze_results])
    together with the properties the specification states about it, and
    of what surrounds the harness in that file: the construction of the
    object, the data prepared for the plot, the interpretation line of
    the report and the exit status of [main].

    Python floats and pandas' float64 columns are binary64 values: they are
    modelled by Rocq's primitive floats, so that an overflow, a division by
    zero or a NaN behaves here as it does in the program.  The outside world
    (the spawned [openssl s_client] processes, the monotonic clock, the wall
    clock) is an explicit environment; the effects of the program (processes
    spawned, pauses, log records) are appended to a trace carried by a small
    state-and-exception monad. *)

From Stdlib Require Import Floats ZArith String List Bool Lia PeanoNat.
Import ListNotations.

Set Warnings "-inexact-float".

Local Open Scope string_scope.

(** ** Exceptions and results *)

(** The exception classes the module raises or catches.  [OtherException]
    stands for whatever else [subprocess.run] may raise ([OSError] when the
    executable cannot be started, [KeyboardInterrupt], ...). *)
Inductive exn : Type :=
| RuntimeError (msg : string)
| ValueError (msg : string)
| CalledProcessError
| TimeoutExpired
| OtherException (name : string).

Inductive Res (A : Type) : Type :=
| Ok (a : A)
| Raise (e : exn).
Arguments Ok {A} a.
Arguments Raise {A} e.

(** ** The outside world *)

(** What one call of [subprocess.run(..., timeout=timeout, check=True)] does,
    bracketed by the two readings of [time.perf_counter()]: it returns (the
    process exited with status 0) between the readings [start_time] and
    [end_time], or it raises. *)
Inductive run_outcome : Type :=
| Completed (start_time end_time : float)
| Failed (e : exn).

(** The environment of a run: the fate of the [i]-th spawned process and
    the [i]-th value of [datetime.now().isoformat()]. *)
Record Env : Type := {
  subprocess_run : nat -> run_outcome;
  datetime_now_isoformat : nat -> string
}.

Inductive log_level : Type := INFO | WARNING.

(** The records sent to the logger, by call site. *)
Inductive log_record : Type :=
| LogStart (iterations : Z)
| LogClassicPass
| LogHybridPass
| LogHandshakeFailure (group : string) (e : exn)
| LogDone (n_classic n_hybrid : nat).

Inductive event : Type :=
| ESubprocess (cmd : list string) (timeout : Z)
| ESleep (seconds : Z)
| ELog (level : log_level) (r : log_record).

(** The state threaded through a run: how many processes were spawned, how
    many times the wall clock was read, and everything done so far. *)
Record World : Type := {
  spawned : nat;
  clock_reads : nat;
  trace : list event
}.

Definition M (A : Type) : Type := World -> Res A * World.

Definition ret {A} (a : A) : M A := fun w => (Ok a, w).

Definition raise {A} (e : exn) : M A := fun w => (Raise e, w).

Definition bind {A B} (c : M A) (k : A -> M B) : M B :=
  fun w =>
    match c w with
    | (Ok a, w') => k a w'
    | (Raise e, w') => (Raise e, w')
    end.

Notation "x <- c ;; k" := (bind c (fun x => k))
  (at level 61, c at next level, right associativity).
Notation "c ;;; k" := (bind c (fun _ => k))
  (at level 61, right associativity).

Definition emit (e : event) : M unit :=
  fun w => (Ok tt, {| spawned := spawned w;
                      clock_reads := clock_reads w;
                      trace := trace w ++ [e] |}).

Definition logger_info (r : log_record) : M unit := emit (ELog INFO r).
Definition logger_warning (r : log_record) : M unit := emit (ELog WARNING r).
Definition time_sleep (seconds : Z) : M unit := emit (ESleep seconds).

(** ** Library functions on floats

    [Series.mean], [round] and [DataFrame.describe] are not code of the
    repository.  The first two are given their reference behaviour on
    binary64; the third is a parameter of [analyze_results].

    With the dependencies the package declares (pandas and numpy),
    [Series.mean()] returns a [numpy.float64].  Arithmetic on it follows
    IEEE 754: a division by zero gives an infinity or NaN (numpy warns, it
    does not raise), which is what the primitive division does here. *)

Local Open Scope float_scope.

Definition float_of_nat (n : nat) : float :=
  PrimFloat.of_uint63 (Uint63.of_Z (Z.of_nat n)).

(** [x != x], the test pandas uses to skip missing values. *)
Definition isnan (x : float) : bool := negb (x =? x).

(** [math.isfinite]. *)
Definition isfinite (x : float) : bool := abs x <? infinity.

(** numpy's sum of a block of values, as [add.reduce] does it on a
    contiguous array: fewer than eight values are added one after the
    other; from eight on, eight running sums take the values in turn
    (value [i] goes to sum [i mod 8]) as long as whole groups of eight
    remain, the eight sums are added in pairs, and the values left over
    are added one after the other. *)
Fixpoint pairwise_lanes (r0 r1 r2 r3 r4 r5 r6 r7 : float) (rest : list float)
  : float :=
  match rest with
  | a0 :: a1 :: a2 :: a3 :: a4 :: a5 :: a6 :: a7 :: rest' =>
      pairwise_lanes (r0 + a0) (r1 + a1) (r2 + a2) (r3 + a3)
                     (r4 + a4) (r5 + a5) (r6 + a6) (r7 + a7) rest'
  | _ =>
      fold_left PrimFloat.add rest
        (((r0 + r1) + (r2 + r3)) + ((r4 + r5) + (r6 + r7)))
  end.

Definition pairwise_block (a : list float) : float :=
  match a with
  | a0 :: a1 :: a2 :: a3 :: a4 :: a5 :: a6 :: a7 :: rest =>
      pairwise_lanes a0 a1 a2 a3 a4 a5 a6 a7 rest
  | _ => fold_left PrimFloat.add a (-0)
  end.

(** Above 128 values the array is cut in two, the first part having half
    the length rounded down to a multiple of eight, and the sums of the
    two parts are added.  The recursion is on [fuel], which
    [pairwise_sum] takes to be the length: the parts get shorter at each
    cut, so it never runs out. *)
Fixpoint pairwise_sum_rec (fuel : nat) (a : list float) : float :=
  if (length a <=? 128)%nat then pairwise_block a
  else
    match fuel with
    | O => pairwise_block a
    | S fuel' =>
        let n2 := (length a / 2 - (length a / 2) mod 8)%nat in
        pairwise_sum_rec fuel' (firstn n2 a) +
        pairwise_sum_rec fuel' (skipn n2 a)
    end.

Definition pairwise_sum (a : list float) : float :=
  pairwise_sum_rec (length a) a.

(** [Series.mean()] with its default [skipna=True], as pandas computes
    it: the values that are NaN are replaced by zero, the values are
    summed by numpy (from its identity, zero), and the sum is divided by
    the number of values that are not NaN; NaN when there is none. *)
Definition series_mean (xs : list float) : float :=
  let values := map (fun x => if isnan x then 0 else x) xs in
  let count := length (filter (fun x => negb (isnan x)) xs) in
  if (count =? 0)%nat then nan
  else (0 + pairwise_sum values) / float_of_nat count.

(** C's [rint] in the default rounding mode: the nearest integer, ties
    to even, with the sign of the argument.  Below [2^52] in magnitude
    adding and subtracting [2^52] rounds to an integer; from [2^52] on, as
    for an infinity or NaN, the value is left as it is. *)
Definition rint (x : float) : float :=
  if abs x <? 0x1p52 then
    let r := (abs x + 0x1p52) - 0x1p52 in
    if orb (x <? 0) (andb (x =? 0) (1 / x <? 0)) then - r else r
  else x.

(** [round(x, 2)] on a [numpy.float64]: numpy scales by a hundred, rounds
    to an integer with [rint], and scales back. *)
Definition round2 (x : float) : float := rint (x * 100) / 100.

(** ** The program *)

Record DataFrame : Type := {
  classic_ms : list float;
  hybrid_ms : list float;
  timestamp : list string
}.

(** [len(df)]: the number of rows. *)
Definition len_df (df : DataFrame) : nat := length (classic_ms df).

Record Summary : Type := {
  classic_mean_ms : float;
  hybrid_mean_ms : float;
  delta_percent : float;
  sample_size : nat
}.

Record Metadata : Type := {
  meta_timestamp : string;
  meta_target : string;
  meta_openssl_path : string
}.

Record Analysis (Stats : Type) : Type := {
  summary : Summary;
  statistics : Stats;
  metadata : Metadata
}.
Arguments summary {Stats} a.
Arguments statistics {Stats} a.
Arguments metadata {Stats} a.

Module TLSBenchmark.

(** The attributes of the object that the harness reads. *)
Record self_t : Type := {
  target : string;
  openssl_path : string
}.

Section Harness.

Variable env : Env.

(** [subprocess.run(cmd, ..., timeout=timeout, check=True)]. *)
Definition subprocess_run_call (cmd : list string) (timeout : Z)
  : M run_outcome :=
  fun w => (Ok (subprocess_run env (spawned w)),
            {| spawned := S (spawned w);
               clock_reads := clock_reads w;
               trace := trace w ++ [ESubprocess cmd timeout] |}).

(** [datetime.now().isoformat()]. *)
Definition datetime_now : M string :=
  fun w => (Ok (datetime_now_isoformat env (clock_reads w)),
            {| spawned := spawned w;
               clock_reads := S (clock_reads w);
               trace := trace w |}).

Definition cmd_of (self : self_t) (group : string) : list string :=
  [openssl_path self; "s_client"; "-connect"; target self;
   "-groups"; group; "-brief"; "-tls1_3"]%string.

Definition measure_latency (self : self_t) (group : string) (timeout : Z)
  : M (option float) :=
  r <- subprocess_run_call (cmd_of self group) timeout ;;
  match r with
  | Completed start_time end_time =>
      let latency_ms := (end_time - start_time) * 1000 in
      ret (if 0 <=? latency_ms then Some latency_ms else None)
  | Failed CalledProcessError =>
      logger_warning (LogHandshakeFailure group CalledProcessError) ;;;
      ret None
  | Failed TimeoutExpired =>
      logger_warning (LogHandshakeFailure group TimeoutExpired) ;;;
      ret None
  | Failed e => raise e
  end.

(** The two measuring loops of [run_benchmark] are the same loop on two
    groups: [n] iterations, each appending its latency to the list when
    there is one. *)
Fixpoint latencies_loop (self : self_t) (group : string) (n : nat)
  (latencies : list float) : M (list float) :=
  match n with
  | O => ret latencies
  | S n' =>
      latency <- measure_latency self group 5 ;;
      latencies_loop self group n'
        (match latency with
         | Some l => latencies ++ [l]
         | None => latencies
         end)
  end.

(** [pd.DataFrame({...})]: the columns must have one length. *)
Definition pd_DataFrame (c h : list float) (t : list string) : M DataFrame :=
  if andb (length c =? length h)%nat (length h =? length t)%nat
  then ret {| classic_ms := c; hybrid_ms := h; timestamp := t |}
  else raise (ValueError "All arrays must be of the same length").

Definition run_benchmark (self : self_t) (iterations : Z) : M DataFrame :=
  logger_info (LogStart iterations) ;;;
  logger_info LogClassicPass ;;;
  classic_latencies <-
    latencies_loop self "X25519" (Z.to_nat iterations) [] ;;
  time_sleep 2 ;;;
  logger_info LogHybridPass ;;;
  hybrid_latencies <-
    latencies_loop self "X25519MLKEM768" (Z.to_nat iterations) [] ;;
  let min_len := Nat.min (length classic_latencies) (length hybrid_latencies) in
  if (min_len =? 0)%nat
  then raise (RuntimeError "Aucune mesure valide obtenue")
  else
    now <- datetime_now ;;
    df <- pd_DataFrame (firstn min_len classic_latencies)
                       (firstn min_len hybrid_latencies)
                       (repeat now min_len) ;;
    logger_info (LogDone (length classic_latencies)
                         (length hybrid_latencies)) ;;;
    ret df.

Section Analysis.

(** [df[["classic_ms", "hybrid_ms"]].describe(percentiles=[0.5, 0.95, 0.99])
    .to_dict()], a function of the two columns. *)
Variable Stats : Type.
Variable describe : list float -> list float -> Stats.

Definition analyze_results (self : self_t) (df : DataFrame)
  : M (Analysis Stats) :=
  let stats := describe (classic_ms df) (hybrid_ms df) in
  let mean_classic := series_mean (classic_ms df) in
  let mean_hybrid := series_mean (hybrid_ms df) in
  let delta_percent := 100 * (mean_hybrid - mean_classic) / mean_classic in
  now <- datetime_now ;;
  ret {| summary := {| classic_mean_ms := round2 mean_classic;
                       hybrid_mean_ms := round2 mean_hybrid;
                       delta_percent := round2 delta_percent;
                       sample_size := len_df df |};
         statistics := stats;
         metadata := {| meta_timestamp := now;
                        meta_target := target self;
                        meta_openssl_path := openssl_path self |} |}.

(** The measuring part of [main]: the data frame and its analysis, as they
    are handed to [save_results] and printed. *)
Definition main_measure (self : self_t) (iterations : Z)
  : M (DataFrame * Analysis Stats) :=
  df <- run_benchmark self iterations ;;
  analysis <- analyze_results self df ;;
  ret (df, analysis).

End Analysis.

End Harness.

End TLSBenchmark.

Import TLSBenchmark.

Local Close Scope float_scope.
Local Open Scope list_scope.

(** ** What the environment decides

    The quantities the properties speak of, read off the environment
    alone, without running the program. *)

(** The latency an attempt contributes: the elapsed milliseconds of a
    process that returned, when the guard of [measure_latency] lets the
    value through. *)
Definition outcome_latency (r : run_outcome) : option float :=
  match r with
  | Completed start_time end_time =>
      let m := ((end_time - start_time) * 1000)%float in
      if (0 <=? m)%float then Some m else None
  | Failed _ => None
  end.

(** An attempt is handled when [measure_latency] returns from it: the
    process returned, or raised one of the two exceptions it catches. *)
Definition handled (r : run_outcome) : bool :=
  match r with
  | Completed _ _ => true
  | Failed CalledProcessError => true
  | Failed TimeoutExpired => true
  | Failed _ => false
  end.

(** No attempt among the [n] from the [lo]-th raises past the harness. *)
Definition crash_free (env : Env) (lo n : nat) : bool :=
  forallb (fun i => handled (subprocess_run env i)) (seq lo n).

(** The successful latencies of the [n] attempts from the [lo]-th, in the
    order of the attempts. *)
Definition valid_latencies (env : Env) (lo n : nat) : list float :=
  flat_map (fun i => match outcome_latency (subprocess_run env i) with
                     | Some l => [l]
                     | None => []
                     end) (seq lo n).

(** The number of those attempts that gave no latency. *)
Definition failed_count (env : Env) (lo n : nat) : nat :=
  List.length (filter (fun i => match outcome_latency (subprocess_run env i) with
                           | Some _ => false
                           | None => true
                           end) (seq lo n)).

(** What one handled attempt leaves in the trace. *)
Definition attempt_events (self : self_t) (group : string) (r : run_outcome)
  : list event :=
  ESubprocess (cmd_of self group) 5 ::
  match r with
  | Failed e => [ELog WARNING (LogHandshakeFailure group e)]
  | Completed _ _ => []
  end.

Definition pass_events (env : Env) (self : self_t) (group : string)
  (lo n : nat) : list event :=
  flat_map (fun i => attempt_events self group (subprocess_run env i))
           (seq lo n).

(** The trace without its log records: processes and pauses. *)
Definition is_effect (e : event) : bool :=
  match e with
  | ELog _ _ => false
  | _ => true
  end.

Definition effects (evs : list event) : list event := filter is_effect evs.

(** The processes among the events. *)
Definition is_subprocess (e : event) : bool :=
  match e with
  | ESubprocess _ _ => true
  | _ => false
  end.

(** The order of processes and pauses that [run_benchmark] follows for
    [n] iterations. *)
Definition schedule (self : self_t) (n : nat) : list event :=
  repeat (ESubprocess (cmd_of self "X25519") 5) n ++
  ESleep 2 ::
  repeat (ESubprocess (cmd_of self "X25519MLKEM768") 5) n.

(** A world in which nothing has happened yet. *)
Definition initial_world : World :=
  {| spawned := 0; clock_reads := 0; trace := [] |}.

(** What a run whose passes both complete leaves in the trace, up to the
    check of the common length. *)
Definition run_events (env : Env) (self : self_t) (iterations : Z)
  (lo : nat) : list event :=
  [ELog INFO (LogStart iterations); ELog INFO LogClassicPass] ++
  pass_events env self "X25519" lo (Z.to_nat iterations) ++
  [ESleep 2; ELog INFO LogHybridPass] ++
  pass_events env self "X25519MLKEM768" (lo + Z.to_nat iterations)
              (Z.to_nat iterations).

(** ** Scenarios *)

Definition example_self : self_t :=
  {| target := "localhost:4433"; openssl_path := "/usr/local/bin/openssl" |}.

(** A handshake that completes in [ms] milliseconds. *)
Definition handshake (ms : float) : run_outcome :=
  Completed 0 (ms / 1000).

(** The environment in which the spawned processes end as listed (and
    time out past the end of the list). *)
Definition env_of_outcomes (outcomes : list run_outcome) : Env :=
  {| subprocess_run := fun i => nth i outcomes (Failed TimeoutExpired);
     datetime_now_isoformat := fun _ => "2025-07-01T12:00:00" |}.

(** Five iterations; two attempts of the classic pass time out. *)
Definition two_timeouts_in_five : Env :=
  env_of_outcomes
    [handshake 10; Failed TimeoutExpired; handshake 12;
     Failed TimeoutExpired; handshake 11;
     handshake 15; handshake 16; handshake 14; handshake 13; handshake 17].

(** Two iterations; the classic pass fails throughout, the hybrid pass
    succeeds. *)
Definition classic_pass_fails : Env :=
  env_of_outcomes
    [Failed TimeoutExpired; Failed CalledProcessError;
     handshake 15; handshake 16].

(** One iteration, no failure. *)
Definition one_of_one : Env :=
  env_of_outcomes [handshake 10; handshake 15].

(** Two iterations, every second attempt fails. *)
Definition one_of_two : Env :=
  env_of_outcomes
    [handshake 10; Failed TimeoutExpired;
     handshake 15; Failed CalledProcessError].

(** A process whose two clock readings are so far apart that the elapsed
    milliseconds overflow. *)
Definition clock_overflow : Env :=
  env_of_outcomes [Completed 0 0x1p1023].

(** A data frame of the specification's scenario. *)
Definition scenario_frame : DataFrame :=
  {| classic_ms := [10; 12; 11]%float;
     hybrid_ms := [15; 16; 14]%float;
     timestamp := repeat "2025-07-01T12:00:00" 3 |}.

(** Its analysis for [example_self], without the table. *)
Definition scenario_analysis : Analysis unit :=
  {| summary := {| classic_mean_ms := 11%float;
                   hybrid_mean_ms := 15%float;
                   delta_percent := 36.36%float;
                   sample_size := 3 |};
     statistics := tt;
     metadata := {| meta_timestamp := "2025-07-01T12:00:00";
                    meta_target := "localhost:4433";
                    meta_openssl_path := "/usr/local/bin/openssl" |} |}.

(** A data frame whose classic column has mean zero. *)
Definition zero_baseline_frame : DataFrame :=
  {| classic_ms := [0]%float;
     hybrid_ms := [1]%float;
     timestamp := ["2025-07-01T12:00:00"] |}.

(** A data frame whose two columns have mean zero. *)
Definition all_zero_frame : DataFrame :=
  {| classic_ms := [0]%float;
     hybrid_ms := [0]%float;
     timestamp := ["2025-07-01T12:00:00"] |}.

(** A [describe] that keeps nothing, for runs where the table plays no
    part. *)
Definition no_table : list float -> list float -> unit := fun _ _ => tt.

(** ** The object and its construction

    [__init__], [_find_openssl] and [_setup_environment] read the file
    system and the process environment; both are given by [OS]. *)

(** A Python [dict] of strings: the keys in insertion order, each once. *)
Definition dict : Type := list (string * string).

Fixpoint dict_get (d : dict) (k : string) : option string :=
  match d with
  | [] => None
  | (k', v) :: d' => if String.eqb k' k then Some v else dict_get d' k
  end.

(** [d[k] = v]: the value of an existing key is replaced in place, a new
    key goes to the end. *)
Fixpoint dict_set (d : dict) (k v : string) : dict :=
  match d with
  | [] => [(k, v)]
  | (k', v') :: d' =>
      if String.eqb k' k then (k, v) :: d' else (k', v') :: dict_set d' k v
  end.

Record OS : Type := {
  os_path_exists : string -> bool;
  os_path_expanduser : string -> string;
  os_environ : dict;
  (** [str(Path(p))]: the path as [pathlib] writes it, without a slash
      at the end or a doubled one. *)
  pathlib_Path : string -> string;
  (** [Path(p).mkdir(parents=True, exist_ok=True)]: the exception it
      raises, if any. *)
  path_mkdir : string -> option exn
}.

Definition possible_paths (os : OS) : list string :=
  [os_path_expanduser os "~/ossl-3.5/bin/openssl";
   "/usr/local/bin/openssl";
   "/usr/bin/openssl"].

Definition _find_openssl (os : OS) : Res string :=
  match find (os_path_exists os) (possible_paths os) with
  | Some path => Ok path
  | None => Raise (RuntimeError "OpenSSL non trouvé. Veuillez spécifier le chemin.")
  end.

Definition _setup_environment (os : OS) : dict :=
  let base_dir := os_path_expanduser os "~/ossl-3.5" in
  dict_set
    (dict_set
       (dict_set (os_environ os) "LD_LIBRARY_PATH" (base_dir ++ "/lib64"))
       "OPENSSL_CONF" (base_dir ++ "/ssl/openssl.cnf"))
    "OPENSSL_MODULES" (base_dir ++ "/lib64/ossl-modules").

(** The object once constructed: the attributes the harness reads, the
    output directory (a [Path], kept as the string it prints) and the
    environment given to the processes. *)
Record TLSBenchmark_t : Type := {
  self_harness : self_t;
  output_dir : string;
  self_env : dict
}.

(** [TLSBenchmark(openssl_path, target, output_dir)].  An [openssl_path]
    that is [None] or empty is false for [or]. *)
Definition __init__ (os : OS) (openssl_path : option string)
  (target output_dir : string) : Res TLSBenchmark_t :=
  match path_mkdir os output_dir with
  | Some e => Raise e
  | None =>
      match match openssl_path with
            | Some (String a p) => Ok (String a p)
            | _ => _find_openssl os
            end with
      | Raise e => Raise e
      | Ok path =>
          Ok {| self_harness := {| TLSBenchmark.target := target;
                                   TLSBenchmark.openssl_path := path |};
                output_dir := pathlib_Path os output_dir;
                self_env := _setup_environment os |}
      end
  end.

(** ** The data given to the plot

    Lines 220 to 230 of [generate_plots]: the rows above the display
    bound are left out, then the frame is put in long format. *)

(** [(df["classic_ms"] < 300) & (df["hybrid_ms"] < 300)]. *)
Fixpoint display_mask (cs hs : list float) : list bool :=
  match cs, hs with
  | c :: cs', h :: hs' =>
      andb (c <? 300)%float (h <? 300)%float :: display_mask cs' hs'
  | _, _ => []
  end.

(** [col[mask]]: the entries of a column where the mask holds. *)
Fixpoint boolean_index {A : Type} (mask : list bool) (col : list A)
  : list A :=
  match mask, col with
  | b :: mask', x :: col' =>
      if b then x :: boolean_index mask' col' else boolean_index mask' col'
  | _, _ => []
  end.

Definition df_filtered (df : DataFrame) : DataFrame :=
  let mask := display_mask (classic_ms df) (hybrid_ms df) in
  {| classic_ms := boolean_index mask (classic_ms df);
     hybrid_ms := boolean_index mask (hybrid_ms df);
     timestamp := boolean_index mask (timestamp df) |}.

(** A row of the long format: the identifier column [timestamp], the
    variable column [Type], the value column [Latence (ms)]. *)
Record MeltedRow : Type := {
  melted_timestamp : string;
  melted_Type : string;
  melted_Latence : float
}.

(** [df_filtered.rename(...).melt(id_vars=["timestamp"], ...)]: the rows
    of the first value column, then those of the second. *)
Definition df_melted (df : DataFrame) : list MeltedRow :=
  let f := df_filtered df in
  map (fun tv => {| melted_timestamp := fst tv;
                    melted_Type := "Classique";
                    melted_Latence := snd tv |})
      (combine (timestamp f) (classic_ms f)) ++
  map (fun tv => {| melted_timestamp := fst tv;
                    melted_Type := "Hybride";
                    melted_Latence := snd tv |})
      (combine (timestamp f) (hybrid_ms f)).

(** ** The report

    [_generate_markdown_report]: the fields it prints and the line of
    interpretation it chooses. *)
Inductive interpretation_line : Type :=
| NoSignificantImpact
| PerformanceDegradation (percent : float)
| PerformanceImprovement (percent : float).

Definition interpretation (s : Summary) : interpretation_line :=
  if (abs (delta_percent s) <? 5)%float then NoSignificantImpact
  else if (0 <? delta_percent s)%float
       then PerformanceDegradation (delta_percent s)
       else PerformanceImprovement (abs (delta_percent s)).

Record Report : Type := {
  report_generated : string;
  report_target : string;
  report_classic : float;
  report_hybrid : float;
  report_impact : float;
  report_sample_size : nat;
  report_interpretation : interpretation_line
}.

Definition _generate_markdown_report {Stats : Type} (analysis : Analysis Stats)
  : Report :=
  {| report_generated := meta_timestamp (metadata analysis);
     report_target := meta_target (metadata analysis);
     report_classic := classic_mean_ms (summary analysis);
     report_hybrid := hybrid_mean_ms (summary analysis);
     report_impact := delta_percent (summary analysis);
     report_sample_size := sample_size (summary analysis);
     report_interpretation := interpretation (summary analysis) |}.

(** ** The command line

    [main]: the object is built, the benchmark is run, analysed and saved,
    the summary is printed; an exception that derives from [Exception] is
    logged and turned into the exit status 1. *)

(** The parsed arguments. *)
Record Args : Type := {
  arg_iterations : Z;
  arg_target : string;
  arg_output : string;
  arg_openssl : option string
}.

(** What [main] leaves behind: its return value, the exception it logged
    and what it printed (the summary and the files written). *)
Record MainOutcome : Type := {
  exit_status : Z;
  logged_error : option exn;
  printed : option (Summary * dict)
}.

(** The exceptions [except Exception] catches: all but the few classes
    that derive from [BaseException] alone. *)
Definition is_Exception (e : exn) : bool :=
  match e with
  | OtherException name =>
      negb (existsb (String.eqb name)
              ["KeyboardInterrupt"; "SystemExit"; "GeneratorExit"])
  | _ => true
  end.

Section Main.

Variable os : OS.
Variable env : Env.
Variable Stats : Type.
Variable describe : list float -> list float -> Stats.

(** [save_results]: it writes the files and returns their paths.  The
    files are not modelled; the function is a parameter. *)
Variable save_results :
  TLSBenchmark_t -> DataFrame -> Analysis Stats -> M dict.

Definition main_except (e : exn) (w : World) : Res MainOutcome * World :=
  if is_Exception e
  then (Ok {| exit_status := 1; logged_error := Some e; printed := None |}, w)
  else (Raise e, w).

Definition main (args : Args) : M MainOutcome :=
  fun w =>
    match __init__ os (arg_openssl args) (arg_target args) (arg_output args) with
    | Raise e => main_except e w
    | Ok benchmark =>
        match (df <- run_benchmark env (self_harness benchmark)
                       (arg_iterations args) ;;
               analysis <- analyze_results env Stats describe
                             (self_harness benchmark) df ;;
               files <- save_results benchmark df analysis ;;
               ret (analysis, files)) w with
        | (Ok (analysis, files), w') =>
            (Ok {| exit_status := 0;
                   logged_error := None;
                   printed := Some (summary analysis, files) |}, w')
        | (Raise e, w') => main_except e w'
        end
    end.

End Main.

(** ** More of what the environment decides *)

(** The attempts whose process raised. *)
Definition raised_count (env : Env) (lo n : nat) : nat :=
  List.length (filter (fun i => match subprocess_run env i with
                                | Failed _ => true
                                | Completed _ _ => false
                                end) (seq lo n)).

(** The attempts whose process returned but whose measurement the guard
    refused. *)
Definition rejected_count (env : Env) (lo n : nat) : nat :=
  List.length (filter (fun i => match subprocess_run env i with
                                | Failed _ => false
                                | Completed _ _ =>
                                    match outcome_latency (subprocess_run env i) with
                                    | Some _ => false
                                    | None => true
                                    end
                                end) (seq lo n)).

Definition is_warning (e : event) : bool :=
  match e with
  | ELog WARNING _ => true
  | _ => false
  end.

(** The columns of a frame have one length. *)
Definition well_formed (df : DataFrame) : Prop :=
  List.length (classic_ms df) = List.length (hybrid_ms df) /\
  List.length (hybrid_ms df) = List.length (timestamp df).

(** The rows of a frame. *)
Definition rows (df : DataFrame) : list (float * (float * string)) :=
  combine (classic_ms df) (combine (hybrid_ms df) (timestamp df)).

(** A row is displayed when both its latencies are below the bound. *)
Definition displayed (r : float * (float * string)) : bool :=
  andb (fst r <? 300)%float (fst (snd r) <? 300)%float.

(** ** More scenarios *)

(** A machine with the system OpenSSL only, and a library path already
    set. *)
Definition example_os : OS :=
  {| os_path_exists := fun p => String.eqb p "/usr/bin/openssl";
     os_path_expanduser :=
       fun p => if String.prefix "~" p
                then ("/home/user" ++
                      String.substring 1 (String.length p - 1) p)%string
                else p;
     os_environ := [("PATH", "/usr/bin"); ("LD_LIBRARY_PATH", "/opt/lib")];
     pathlib_Path :=
       fun p => if String.eqb p "data/output/" then "data/output" else p;
     path_mkdir := fun _ => None |}.

(** The executable disappears before the third attempt. *)
Definition executable_vanishes : Env :=
  env_of_outcomes
    [handshake 10; Failed TimeoutExpired;
     Failed (OtherException "FileNotFoundError"); handshake 12].

(** A clock that runs backwards during the second attempt. *)
Definition clock_steps_back : Env :=
  env_of_outcomes
    [handshake 10; Completed 2 1; Failed TimeoutExpired;
     handshake 15; handshake 16; handshake 14].

(** A frame with one outlier in each configuration. *)
Definition frame_with_outliers : DataFrame :=
  {| classic_ms := [10; 350; 12; 11]%float;
     hybrid_ms := [15; 16; 400; 14]%float;
     timestamp := repeat "2025-07-01T12:00:00" 4 |}.

(** A frame whose two columns are the same. *)
Definition same_columns_frame : DataFrame :=
  {| classic_ms := [10; 12; 11]%float;
     hybrid_ms := [10; 12; 11]%float;
     timestamp := repeat "2025-07-01T12:00:00" 3 |}.

(** A frame without any row. *)
Definition empty_frame : DataFrame :=
  {| classic_ms := []; hybrid_ms := []; timestamp := [] |}.

(** A [save_results] that writes nothing and always returns. *)
Definition save_nothing {Stats : Type}
  : TLSBenchmark_t -> DataFrame -> Analysis Stats -> M dict :=
  fun _ _ _ => ret [].

Definition example_args : Args :=
  {| arg_iterations := 2;
     arg_target := "localhost:4433";
     arg_output := "data/output";
     arg_openssl := None |}.

(** A machine without any OpenSSL. *)
Definition os_without_openssl : OS :=
  {| os_path_exists := fun _ => false;
     os_path_expanduser := os_path_expanduser example_os;
     os_environ := [];
     pathlib_Path := pathlib_Path example_os;
     path_mkdir := fun _ => None |}.

(** The object that [example_args] build on [example_os]. *)
Definition example_object : TLSBenchmark_t :=
  {| self_harness := {| target := "localhost:4433";
                        openssl_path := "/usr/bin/openssl" |};
     output_dir := "data/output";
     self_env := _setup_environment example_os |}.

(** Two iterations: the classic pass fails throughout; in the hybrid
    pass the executable is gone for the last attempt. *)
Definition empty_pass_then_crash : Env :=
  env_of_outcomes
    [Failed TimeoutExpired; Failed CalledProcessError;
     handshake 15; Failed (OtherException "FileNotFoundError")].

(** The executable cannot be started at all. *)
Definition executable_missing : Env :=
  env_of_outcomes [Failed (OtherException "FileNotFoundError")].

(** A frame of eight rows. *)
Definition eight_row_frame : DataFrame :=
  {| classic_ms := [30.3; 44.3; 44.4; 31.2; 24.7; 49.7; 28.8; 25.0]%float;
     hybrid_ms := [43.4; 34.3; 42.2; 13.6; 41.1; 47.0; 20.2; 45.3]%float;
     timestamp := repeat "2025-07-01T12:00:00" 8 |}.

(** ** The monad *)

Lemma bind_ok {A B} (c : M A) (k : A -> M B) w a w' :
  c w = (Ok a, w') -> bind c k w = k a w'.
Proof. intros H. unfold bind. now rewrite H. Qed.

Lemma bind_raise {A B} (c : M A) (k : A -> M B) w e w' :
  c w = (Raise e, w') -> bind c k w = (Raise e, w').
Proof. intros H. unfold bind. now rewrite H. Qed.

(** ** Binary64 facts *)

Lemma SFcompare_refl_finite s m e :
  SFcompare (S754_finite s m e) (S754_finite s m e) = Some Eq.
Proof.
  simpl. rewrite Z.compare_refl, Pos.compare_cont_refl.
  now destruct s.
Qed.

(** The guard [latency_ms >= 0] lets through exactly the values that are
    neither NaN nor below zero. *)
Lemma guard_spec (m : float) :
  (0 <=? m)%float = andb (negb (isnan m)) (negb (m <? 0)%float).
Proof.
  unfold isnan.
  rewrite FloatAxioms.leb_spec, FloatAxioms.ltb_spec, FloatAxioms.eqb_spec.
  change (Prim2SF 0%float) with (S754_zero false).
  unfold SFleb, SFltb, SFeqb.
  destruct (Prim2SF m) as [s | s | | s mm e].
  - reflexivity.
  - now destruct s.
  - reflexivity.
  - rewrite SFcompare_refl_finite. now destruct s.
Qed.

(** ** One attempt *)

Section Attempt.

Variable env : Env.
Variable self : self_t.

Lemma measure_latency_handled group timeout w :
  handled (subprocess_run env (spawned w)) = true ->
  measure_latency env self group timeout w =
  (Ok (outcome_latency (subprocess_run env (spawned w))),
   {| spawned := S (spawned w);
      clock_reads := clock_reads w;
      trace := (trace w ++ [ESubprocess (cmd_of self group) timeout]) ++
               match subprocess_run env (spawned w) with
               | Failed e => [ELog WARNING (LogHandshakeFailure group e)]
               | Completed _ _ => []
               end |}).
Proof.
  intros H. unfold measure_latency, bind, subprocess_run_call.
  destruct (subprocess_run env (spawned w)) as [t0 t1 | e]; simpl.
  - now rewrite app_nil_r.
  - destruct e; simpl in H; try discriminate; reflexivity.
Qed.

Lemma measure_latency_unhandled group timeout w :
  handled (subprocess_run env (spawned w)) = false ->
  exists e,
    subprocess_run env (spawned w) = Failed e /\
    measure_latency env self group timeout w =
    (Raise e,
     {| spawned := S (spawned w);
        clock_reads := clock_reads w;
        trace := trace w ++ [ESubprocess (cmd_of self group) timeout] |}).
Proof.
  intros H. unfold measure_latency, bind, subprocess_run_call.
  destruct (subprocess_run env (spawned w)) as [t0 t1 | e]; simpl in *.
  - discriminate.
  - exists e. destruct e; try discriminate; auto.
Qed.

End Attempt.

(** ** One pass *)

Section Pass.

Variable env : Env.
Variable self : self_t.
Variable group : string.

Lemma crash_free_S lo n :
  crash_free env lo (S n) =
  andb (handled (subprocess_run env lo)) (crash_free env (S lo) n).
Proof. reflexivity. Qed.

Lemma crash_free_app lo n m :
  crash_free env lo (n + m) =
  andb (crash_free env lo n) (crash_free env (lo + n) m).
Proof.
  unfold crash_free. now rewrite seq_app, forallb_app.
Qed.

Lemma valid_latencies_S lo n :
  valid_latencies env lo (S n) =
  match outcome_latency (subprocess_run env lo) with
  | Some l => [l]
  | None => []
  end ++ valid_latencies env (S lo) n.
Proof. reflexivity. Qed.

Lemma pass_events_S lo n :
  pass_events env self group lo (S n) =
  attempt_events self group (subprocess_run env lo) ++
  pass_events env self group (S lo) n.
Proof. reflexivity. Qed.

(** A pass none of whose attempts raises past the harness runs its [n]
    iterations and returns the valid latencies in the order of arrival. *)
Lemma latencies_loop_crash_free n : forall latencies w,
  crash_free env (spawned w) n = true ->
  latencies_loop env self group n latencies w =
  (Ok (latencies ++ valid_latencies env (spawned w) n),
   {| spawned := spawned w + n;
      clock_reads := clock_reads w;
      trace := trace w ++ pass_events env self group (spawned w) n |}).
Proof.
  induction n as [| n IH]; intros latencies w H.
  - simpl. unfold ret. rewrite !app_nil_r, Nat.add_0_r.
    now destruct w.
  - rewrite crash_free_S in H. apply andb_prop in H. destruct H as [Hh Hc].
    cbn [latencies_loop].
    erewrite bind_ok by (apply measure_latency_handled; exact Hh).
    rewrite IH by exact Hc.
    cbn [spawned clock_reads trace].
    rewrite valid_latencies_S, pass_events_S. unfold attempt_events.
    f_equal.
    + f_equal.
      destruct (outcome_latency (subprocess_run env (spawned w)));
        simpl; now rewrite <- ?app_assoc.
    + f_equal; [lia |].
      rewrite <- !app_assoc. reflexivity.
Qed.

(** A pass one of whose attempts raises past the harness raises in turn;
    it has spawned at most [n] processes, all for its own group. *)
Lemma latencies_loop_crash n : forall latencies w,
  crash_free env (spawned w) n = false ->
  exists e w' evs k,
    latencies_loop env self group n latencies w = (Raise e, w') /\
    trace w' = trace w ++ evs /\
    effects evs = repeat (ESubprocess (cmd_of self group) 5) k /\
    k <= n.
Proof.
  induction n as [| n IH]; intros latencies w H.
  - discriminate.
  - rewrite crash_free_S in H. cbn [latencies_loop].
    destruct (handled (subprocess_run env (spawned w))) eqn:Hh.
    + simpl in H.
      erewrite bind_ok by (apply measure_latency_handled; exact Hh).
      match goal with
      | |- context [latencies_loop _ _ _ _ ?l ?w1] =>
          destruct (IH l w1 H) as (e & w' & evs & k & Hrun & Htr & Heff & Hk)
      end.
      cbn [spawned clock_reads trace] in *.
      exists e, w',
        (attempt_events self group (subprocess_run env (spawned w)) ++ evs),
        (S k).
      repeat split.
      * exact Hrun.
      * rewrite Htr. unfold attempt_events. simpl.
        now rewrite <- !app_assoc.
      * unfold effects in *. rewrite filter_app, Heff. unfold attempt_events.
        destruct (subprocess_run env (spawned w)); reflexivity.
      * lia.
    + destruct (measure_latency_unhandled env self group 5 w Hh)
        as (e & _ & Hm).
      exists e. eexists. exists [ESubprocess (cmd_of self group) 5], 1.
      repeat split.
      * erewrite bind_raise by exact Hm. reflexivity.
      * reflexivity.
      * lia.
Qed.

Lemma effects_pass_events lo n :
  effects (pass_events env self group lo n) =
  repeat (ESubprocess (cmd_of self group) 5) n.
Proof.
  revert lo. induction n as [| n IH]; intros lo.
  - reflexivity.
  - rewrite pass_events_S. unfold effects in *. rewrite filter_app, IH.
    unfold attempt_events.
    destruct (subprocess_run env lo); reflexivity.
Qed.

(** Every attempt either gives a latency or is counted as failed. *)
Lemma attempts_partition lo n :
  n = List.length (valid_latencies env lo n) + failed_count env lo n.
Proof.
  unfold valid_latencies, failed_count.
  generalize (length_seq n lo). generalize (seq lo n) as l.
  intros l <-. induction l as [| i l IH]; simpl.
  - reflexivity.
  - destruct (outcome_latency (subprocess_run env i)); simpl; lia.
Qed.

End Pass.

(** ** A whole run *)

Section Run.

Variable env : Env.
Variable self : self_t.

Lemma effects_app (l1 l2 : list event) :
  effects (l1 ++ l2) = effects l1 ++ effects l2.
Proof. apply filter_app. Qed.

Lemma effects_run_events iterations lo :
  effects (run_events env self iterations lo) =
  schedule self (Z.to_nat iterations).
Proof.
  unfold run_events, schedule.
  rewrite !effects_app, !effects_pass_events. reflexivity.
Qed.

(** The run, when no attempt raises past the harness. *)
Lemma run_benchmark_crash_free iterations w :
  let n := Z.to_nat iterations in
  let c := valid_latencies env (spawned w) n in
  let h := valid_latencies env (spawned w + n) n in
  let k := Nat.min (List.length c) (List.length h) in
  crash_free env (spawned w) (n + n) = true ->
  run_benchmark env self iterations w =
  if (k =? 0)%nat then
    (Raise (RuntimeError "Aucune mesure valide obtenue"),
     {| spawned := spawned w + n + n;
        clock_reads := clock_reads w;
        trace := trace w ++ run_events env self iterations (spawned w) |})
  else
    (Ok {| classic_ms := firstn k c;
           hybrid_ms := firstn k h;
           timestamp := repeat (datetime_now_isoformat env (clock_reads w)) k |},
     {| spawned := spawned w + n + n;
        clock_reads := S (clock_reads w);
        trace := trace w ++ run_events env self iterations (spawned w) ++
                 [ELog INFO (LogDone (List.length c) (List.length h))] |}).
Proof.
  intros n c h k H.
  rewrite crash_free_app in H. apply andb_prop in H. destruct H as [H1 H2].
  unfold run_benchmark.
  unfold logger_info, time_sleep, emit.
  unfold bind at 1. unfold bind at 1.
  erewrite bind_ok by (apply latencies_loop_crash_free; exact H1).
  cbn [spawned clock_reads trace app].
  unfold bind at 1. unfold bind at 1.
  erewrite bind_ok by (apply latencies_loop_crash_free; exact H2).
  cbn [spawned clock_reads trace app].
  change (valid_latencies env (spawned w) (Z.to_nat iterations)) with c.
  change (valid_latencies env (spawned w + Z.to_nat iterations)
            (Z.to_nat iterations)) with h.
  change (Nat.min (List.length c) (List.length h)) with k.
  destruct (k =? 0)%nat eqn:Hk.
  - unfold raise, run_events. f_equal. f_equal.
    fold n. rewrite <- !app_assoc. reflexivity.
  - unfold bind at 1. unfold datetime_now at 1.
    cbn [spawned clock_reads trace].
    unfold bind at 1. unfold pd_DataFrame.
    assert (Hc : List.length (firstn k c) = k)
      by (rewrite length_firstn; unfold k; lia).
    assert (Hh : List.length (firstn k h) = k)
      by (rewrite length_firstn; unfold k; lia).
    rewrite Hc, Hh, repeat_length, !Nat.eqb_refl.
    cbn [andb]. unfold bind, ret.
    cbn [spawned clock_reads trace].
    f_equal. f_equal. unfold run_events. fold n.
    rewrite <- !app_assoc. reflexivity.
Qed.

(** The run, when an attempt raises past the harness: it raises in turn,
    having followed the schedule up to that attempt. *)
Lemma run_benchmark_crash iterations w :
  let n := Z.to_nat iterations in
  crash_free env (spawned w) (n + n) = false ->
  exists e w' evs rest,
    run_benchmark env self iterations w = (Raise e, w') /\
    trace w' = trace w ++ evs /\
    effects evs ++ rest = schedule self n.
Proof.
  intros n H.
  rewrite crash_free_app in H.
  unfold run_benchmark, logger_info, time_sleep, emit.
  unfold bind at 1. unfold bind at 1.
  destruct (crash_free env (spawned w) n) eqn:H1.
  - simpl in H.
    erewrite bind_ok by (apply latencies_loop_crash_free; exact H1).
    cbn [spawned clock_reads trace app].
    unfold bind at 1. unfold bind at 1.
    match goal with
    | |- context [bind (latencies_loop _ _ ?g _ ?l) _ ?w1] =>
        destruct (latencies_loop_crash env self g n l w1 H)
          as (e & w' & evs & k & Hrun & Htr & Heff & Hk)
    end.
    erewrite bind_raise by exact Hrun.
    cbn [spawned clock_reads trace] in Htr.
    exists e, w',
      ([ELog INFO (LogStart iterations); ELog INFO LogClassicPass] ++
       pass_events env self "X25519" (spawned w) n ++
       [ESleep 2; ELog INFO LogHybridPass] ++ evs),
      (repeat (ESubprocess (cmd_of self "X25519MLKEM768") 5) (n - k)).
    repeat split.
    + rewrite Htr. rewrite <- !app_assoc. reflexivity.
    + rewrite !effects_app, effects_pass_events, Heff. unfold schedule.
      cbn [effects filter is_effect app].
      rewrite <- !app_assoc. cbn [app]. rewrite <- repeat_app.
      replace (k + (n - k)) with n by lia. reflexivity.
  - match goal with
    | |- context [bind (latencies_loop _ _ ?g _ ?l) _ ?w1] =>
        destruct (latencies_loop_crash env self g n l w1 H1)
          as (e & w' & evs & k & Hrun & Htr & Heff & Hk)
    end.
    erewrite bind_raise by exact Hrun.
    cbn [spawned clock_reads trace] in Htr.
    exists e, w',
      ([ELog INFO (LogStart iterations); ELog INFO LogClassicPass] ++ evs),
      (repeat (ESubprocess (cmd_of self "X25519") 5) (n - k) ++
       ESleep 2 :: repeat (ESubprocess (cmd_of self "X25519MLKEM768") 5) n).
    repeat split.
    + rewrite Htr. rewrite <- !app_assoc. reflexivity.
    + rewrite effects_app, Heff. unfold schedule.
      cbn [effects filter is_effect app].
      rewrite app_assoc, <- repeat_app.
      replace (k + (n - k)) with n by lia. reflexivity.
Qed.

(** A run that returns a data frame met no such attempt. *)
Lemma run_benchmark_ok_crash_free iterations w df w' :
  run_benchmark env self iterations w = (Ok df, w') ->
  crash_free env (spawned w) (Z.to_nat iterations + Z.to_nat iterations) = true.
Proof.
  intros H.
  destruct (crash_free env (spawned w)
              (Z.to_nat iterations + Z.to_nat iterations)) eqn:Hc; [reflexivity |].
  destruct (run_benchmark_crash iterations w Hc) as (e & w1 & _ & _ & Hr & _).
  rewrite Hr in H. discriminate.
Qed.

End Run.

(** ** The schedule *)

Lemma classic_cmd_neq_hybrid_cmd self :
  ESubprocess (cmd_of self "X25519") 5 <>
  ESubprocess (cmd_of self "X25519MLKEM768") 5.
Proof. unfold cmd_of. intros H. inversion H. Qed.

(** In any initial part of the schedule, a process of the hybrid group
    comes after the [n] processes of the classic group and the pause. *)
Lemma schedule_hybrid_late self n (l rest : list event) i :
  l ++ rest = schedule self n ->
  nth_error l i = Some (ESubprocess (cmd_of self "X25519MLKEM768") 5) ->
  n < i /\
  firstn (S n) l = repeat (ESubprocess (cmd_of self "X25519") 5) n ++ [ESleep 2].
Proof.
  intros Hs Hi.
  assert (Hlen : i < List.length l)
    by (apply nth_error_Some; rewrite Hi; discriminate).
  assert (Hsi : nth_error (schedule self n) i =
                Some (ESubprocess (cmd_of self "X25519MLKEM768") 5))
    by (rewrite <- Hs, nth_error_app1; assumption).
  assert (Hn : n < i).
  { unfold schedule in Hsi.
    destruct (Nat.lt_ge_cases i n) as [Hlt | Hge].
    - rewrite nth_error_app1 in Hsi by (rewrite repeat_length; exact Hlt).
      rewrite nth_error_repeat in Hsi by exact Hlt.
      exfalso. apply (classic_cmd_neq_hybrid_cmd self). congruence.
    - rewrite nth_error_app2 in Hsi by (rewrite repeat_length; exact Hge).
      rewrite repeat_length in Hsi.
      destruct (i - n) eqn:Hd; [discriminate | lia]. }
  split; [exact Hn |].
  assert (Hf : firstn (S n) (l ++ rest) = firstn (S n) l).
  { rewrite firstn_app.
    replace (S n - List.length l) with 0 by lia.
    simpl. apply app_nil_r. }
  rewrite <- Hf, Hs. unfold schedule.
  rewrite firstn_app, repeat_length.
  rewrite firstn_all2 by (rewrite repeat_length; lia).
  replace (S n - n) with 1 by lia. reflexivity.
Qed.

(** ** The model at work *)

Example rint_ties_to_even :
  map rint [0.5; 1.5; 2.5; -2.5; 2.4; 2.6; infinity]%float =
  [0; 2; 2; -2; 2; 3; infinity]%float.
Proof. reflexivity. Qed.

Example round2_examples :
  map round2 [11; 1.005; 36.36363636363637; -0.004; neg_infinity]%float =
  [11; 1; 36.36; -0; neg_infinity]%float.
Proof. reflexivity. Qed.

Example series_mean_skips_nan :
  series_mean [10; nan; 12]%float = 11%float /\
  isnan (series_mean []) = true.
Proof. split; reflexivity. Qed.

(** The whole scenario, from the processes to the report. *)
Example scenario_run :
  fst (main_measure two_timeouts_in_five unit no_table example_self 5
         initial_world) = Ok (scenario_frame, scenario_analysis).
Proof. vm_compute. reflexivity. Qed.

(** An executable that cannot be started: the exception is not caught,
    the run stops at its first attempt. *)
Example spawn_failure_stops_the_run :
  run_benchmark
    (env_of_outcomes [Failed (OtherException "FileNotFoundError")])
    example_self 3 initial_world =
  (Raise (OtherException "FileNotFoundError"),
   {| spawned := 1;
      clock_reads := 0;
      trace := [ELog INFO (LogStart 3); ELog INFO LogClassicPass;
                ESubprocess (cmd_of example_self "X25519") 5] |}).
Proof. reflexivity. Qed.

(** A negative number of iterations is an empty range: nothing is
    spawned and the run raises for want of samples. *)
Example negative_iterations :
  run_benchmark two_timeouts_in_five example_self (-3) initial_world =
  (Raise (RuntimeError "Aucune mesure valide obtenue"),
   {| spawned := 0;
      clock_reads := 0;
      trace := [ELog INFO (LogStart (-3)); ELog INFO LogClassicPass;
                ESleep 2; ELog INFO LogHybridPass] |}).
Proof. reflexivity. Qed.

(** * The properties *)

(** ** Sample collection *)

(** C7, as the program has it.  A pass of [iterations] iterations none
    of whose attempts raises past the harness spawns exactly
    [iterations] processes, one per iteration and all for its own group:
    a failed attempt is not tried again.  It returns the valid latencies
    in the order of arrival, and the attempts are the collected latencies
    plus the failed attempts. *)
Theorem pass_attempts_exactly_iterations
  (env : Env) (self : self_t) (group : string) (iterations : Z) (w : World) :
  (0 <= iterations)%Z ->
  crash_free env (spawned w) (Z.to_nat iterations) = true ->
  exists latencies w' evs,
    latencies_loop env self group (Z.to_nat iterations) [] w =
      (Ok latencies, w') /\
    latencies = valid_latencies env (spawned w) (Z.to_nat iterations) /\
    Z.of_nat (spawned w') = (Z.of_nat (spawned w) + iterations)%Z /\
    trace w' = trace w ++ evs /\
    filter is_subprocess evs =
      repeat (ESubprocess (cmd_of self group) 5) (Z.to_nat iterations) /\
    iterations =
      (Z.of_nat (List.length latencies) +
       Z.of_nat (failed_count env (spawned w) (Z.to_nat iterations)))%Z.
Proof.
  intros Hpos Hcf.
  set (n := Z.to_nat iterations) in *.
  exists (valid_latencies env (spawned w) n).
  eexists. exists (pass_events env self group (spawned w) n).
  split; [apply (latencies_loop_crash_free env self group n [] w Hcf) |].
  cbn [spawned clock_reads trace].
  repeat split.
  - unfold n. lia.
  - clear Hcf. generalize (spawned w) as lo.
    induction n as [| k IH]; intros lo.
    + reflexivity.
    + rewrite pass_events_S, filter_app, IH. unfold attempt_events.
      destruct (subprocess_run env lo); reflexivity.
  - rewrite <- Nat2Z.inj_add, <- attempts_partition. unfold n. lia.
Qed.

(** The scenario of C7: five iterations, two time-outs, three latencies. *)
Lemma pass_attempts_exactly_iterations_witness :
  List.length (valid_latencies two_timeouts_in_five 0 5) = 3 /\
  failed_count two_timeouts_in_five 0 5 = 2 /\
  exists latencies w' evs,
    latencies_loop two_timeouts_in_five example_self "X25519"
      (Z.to_nat 5) [] initial_world = (Ok latencies, w') /\
    latencies = valid_latencies two_timeouts_in_five 0 (Z.to_nat 5) /\
    Z.of_nat (spawned w') = (0 + 5)%Z /\
    trace w' = [] ++ evs /\
    filter is_subprocess evs =
      repeat (ESubprocess (cmd_of example_self "X25519") 5) (Z.to_nat 5) /\
    5%Z =
      (Z.of_nat (List.length latencies) +
       Z.of_nat (failed_count two_timeouts_in_five 0 (Z.to_nat 5)))%Z.
Proof.
  split; [reflexivity |].
  split; [reflexivity |].
  apply (pass_attempts_exactly_iterations two_timeouts_in_five example_self
           "X25519" 5 initial_world).
  - discriminate.
  - reflexivity.
Defined.

(** C7, as the specification states it, fails when an attempt raises an
    exception that is not caught: with three iterations and an executable
    that cannot be started, the run spawns one process, not three, and
    raises the [FileNotFoundError]. *)
Lemma uncaught_exception_cuts_the_pass :
  run_benchmark executable_missing example_self 3 initial_world =
    (Raise (OtherException "FileNotFoundError"),
     {| spawned := 1;
        clock_reads := 0;
        trace := [ELog INFO (LogStart 3); ELog INFO LogClassicPass;
                  ESubprocess (cmd_of example_self "X25519") 5] |}) /\
  filter is_subprocess
    (trace (snd (run_benchmark executable_missing example_self 3
                   initial_world))) =
    [ESubprocess (cmd_of example_self "X25519") 5] /\
  List.length
    (filter is_subprocess
       (trace (snd (run_benchmark executable_missing example_self 3
                      initial_world)))) <> 3.
Proof.
  split; [reflexivity |].
  split; [reflexivity |].
  vm_compute. discriminate.
Qed.

(** ** The order of the two passes *)

(** C8.  Whatever the environment, the processes and pauses of a run are
    an initial part of the schedule: [n] processes of the classic group,
    the pause of two seconds, [n] processes of the hybrid group.  So a
    process of the hybrid group is only ever spawned after all [n]
    processes of the classic group and the pause; and when no attempt
    raises past the harness the run follows the whole schedule. *)
Theorem baseline_cooldown_hybrid
  (env : Env) (self : self_t) (iterations : Z) (w : World) :
  exists evs rest,
    trace (snd (run_benchmark env self iterations w)) = trace w ++ evs /\
    effects evs ++ rest = schedule self (Z.to_nat iterations) /\
    (forall i,
        nth_error (effects evs) i =
          Some (ESubprocess (cmd_of self "X25519MLKEM768") 5) ->
        Z.to_nat iterations < i /\
        firstn (S (Z.to_nat iterations)) (effects evs) =
          repeat (ESubprocess (cmd_of self "X25519") 5) (Z.to_nat iterations)
          ++ [ESleep 2]) /\
    (crash_free env (spawned w) (Z.to_nat iterations + Z.to_nat iterations)
       = true -> rest = []).
Proof.
  set (n := Z.to_nat iterations).
  assert (H : exists evs rest,
             trace (snd (run_benchmark env self iterations w)) = trace w ++ evs /\
             effects evs ++ rest = schedule self n /\
             (crash_free env (spawned w) (n + n) = true -> rest = [])).
  { destruct (crash_free env (spawned w) (n + n)) eqn:Hcf.
    - pose proof (run_benchmark_crash_free env self iterations w Hcf) as Hrun.
      cbv zeta in Hrun. fold n in Hrun.
      destruct (Nat.min _ _ =? 0)%nat.
      + exists (run_events env self iterations (spawned w)), [].
        rewrite Hrun. cbn [snd trace].
        rewrite app_nil_r, effects_run_events. auto.
      + exists (run_events env self iterations (spawned w) ++
                [ELog INFO
                   (LogDone
                      (List.length (valid_latencies env (spawned w) n))
                      (List.length (valid_latencies env (spawned w + n) n)))]),
               [].
        rewrite Hrun. cbn [snd trace].
        rewrite app_nil_r, effects_app, effects_run_events.
        cbn [effects filter is_effect]. rewrite app_nil_r. auto.
    - destruct (run_benchmark_crash env self iterations w Hcf)
        as (e & w' & evs & rest & Hrun & Htr & Hs).
      exists evs, rest. rewrite Hrun. cbn [snd].
      repeat split; [exact Htr | exact Hs | discriminate]. }
  destruct H as (evs & rest & Htr & Hs & Hfull).
  exists evs, rest. repeat split; try assumption;
    eapply schedule_hybrid_late; eassumption.
Qed.

(** ** Pairing *)




(** C10.  The data frame a run returns, which [main] hands to
    [analyze_results], holds in each latency column the first [min_len]
    valid latencies of the corresponding pass, in the order in which the
    attempts were made: entry [i] of a column is the [i]-th valid latency
    of its pass. *)
Theorem truncation_keeps_prefix
  (Stats : Type) (describe : list float -> list float -> Stats)
  (env : Env) (self : self_t) (iterations : Z) (w w' : World)
  (df : DataFrame) (analysis : Analysis Stats) :
  main_measure env Stats describe self iterations w = (Ok (df, analysis), w') ->
  let n := Z.to_nat iterations in
  let c := valid_latencies env (spawned w) n in
  let h := valid_latencies env (spawned w + n) n in
  let min_len := Nat.min (List.length c) (List.length h) in
  fst (run_benchmark env self iterations w) = Ok df /\
  classic_ms df = firstn min_len c /\
  hybrid_ms df = firstn min_len h /\
  (forall i, i < min_len ->
     nth_error (classic_ms df) i = nth_error c i /\
     nth_error (hybrid_ms df) i = nth_error h i) /\
  sample_size (summary analysis) = min_len /\
  classic_mean_ms (summary analysis) = round2 (series_mean (firstn min_len c)) /\
  hybrid_mean_ms (summary analysis) = round2 (series_mean (firstn min_len h)).
Proof.
  intros Hmain n c h min_len.
  unfold main_measure in Hmain. unfold bind at 1 in Hmain.
  destruct (run_benchmark env self iterations w) as [[df0 | e] w1] eqn:Hrun;
    [| discriminate].
  pose proof (run_benchmark_ok_crash_free env self iterations w df0 w1 Hrun)
    as Hcf.
  pose proof (run_benchmark_crash_free env self iterations w Hcf) as Hspec.
  cbv zeta in Hspec. fold n c h min_len in Hspec.
  rewrite Hrun in Hspec.
  destruct (min_len =? 0)%nat; [discriminate |].
  injection Hspec as Hdf Hw1.
  unfold analyze_results, bind, datetime_now, ret in Hmain.
  injection Hmain as Hdf0 Ha _.
  subst df0 df. subst analysis.
  cbn [fst classic_ms hybrid_ms summary sample_size classic_mean_ms
       hybrid_mean_ms len_df].
  split; [reflexivity |].
  split; [reflexivity |].
  split; [reflexivity |].
  split.
  - intros i Hi. apply Nat.ltb_lt in Hi.
    rewrite !nth_error_firstn, Hi. split; reflexivity.
  - split; [| split; reflexivity].
    unfold len_df. cbn [classic_ms].
    rewrite length_firstn. unfold min_len. lia.
Qed.

Lemma truncation_keeps_prefix_witness :
  fst (main_measure two_timeouts_in_five unit no_table example_self 5
         initial_world) = Ok (scenario_frame, scenario_analysis) /\
  classic_ms scenario_frame =
    firstn 3 (valid_latencies two_timeouts_in_five 0 5) /\
  hybrid_ms scenario_frame =
    firstn 3 (valid_latencies two_timeouts_in_five 5 5) /\
  sample_size (summary scenario_analysis) = 3.
Proof.
  assert (H : main_measure two_timeouts_in_five unit no_table example_self 5
                initial_world =
              (Ok (scenario_frame, scenario_analysis),
               snd (main_measure two_timeouts_in_five unit no_table
                      example_self 5 initial_world)))
    by (vm_compute; reflexivity).
  split; [rewrite H; reflexivity |].
  destruct (truncation_keeps_prefix unit no_table two_timeouts_in_five
              example_self 5 initial_world _ _ _ H)
    as (_ & Hc & Hh & _ & Hs & _).
  split; [exact Hc |].
  split; [exact Hh | exact Hs].
Defined.

(** ** A pass without any success *)

(** C5, as the program has it.  In a run none of whose attempts raises
    past the harness, when all the attempts of a pass fail the run raises
    [RuntimeError("Aucune mesure valide obtenue")] and returns no data
    frame.  It does so at the check of the common length and not at the
    end of the pass: both passes and the pause have gone through in full,
    with every process spawned. *)
Theorem empty_pass_fails_the_run_at_its_end
  (env : Env) (self : self_t) (iterations : Z) (w : World) :
  let n := Z.to_nat iterations in
  let c := valid_latencies env (spawned w) n in
  let h := valid_latencies env (spawned w + n) n in
  crash_free env (spawned w) (n + n) = true ->
  c = [] \/ h = [] ->
  exists w',
    run_benchmark env self iterations w =
      (Raise (RuntimeError "Aucune mesure valide obtenue"), w') /\
    spawned w' = spawned w + n + n /\
    exists evs, trace w' = trace w ++ evs /\ effects evs = schedule self n.
Proof.
  intros n c h Hcf Hempty.
  pose proof (run_benchmark_crash_free env self iterations w Hcf) as Hrun.
  cbv zeta in Hrun. fold n c h in Hrun.
  assert (Hm : (Nat.min (List.length c) (List.length h) =? 0)%nat = true).
  { apply Nat.eqb_eq. destruct Hempty as [-> | ->]; simpl; lia. }
  rewrite Hm in Hrun. rewrite Hrun.
  eexists. split; [reflexivity |]. cbn [spawned trace].
  split; [reflexivity |].
  exists (run_events env self iterations (spawned w)).
  split; [reflexivity | apply effects_run_events].
Qed.

Lemma empty_pass_fails_the_run_at_its_end_witness :
  valid_latencies classic_pass_fails 0 2 = [] /\
  exists w',
    run_benchmark classic_pass_fails example_self 2 initial_world =
      (Raise (RuntimeError "Aucune mesure valide obtenue"), w') /\
    spawned w' = 4 /\
    exists evs, trace w' = evs /\ effects evs = schedule example_self 2.
Proof.
  split; [reflexivity |].
  apply (empty_pass_fails_the_run_at_its_end classic_pass_fails example_self
           2 initial_world).
  - reflexivity.
  - left. reflexivity.
Defined.

(** C5, as the specification states it, fails: here the two attempts of
    the classic pass fail, one by time-out and one by error status, yet
    nothing fails for want of samples when that pass ends.  The run
    waits, spawns the two processes of the hybrid pass, and raises the
    [FileNotFoundError] of the last of them: the
    [RuntimeError("Aucune mesure valide obtenue")] is never raised. *)
Lemma empty_pass_does_not_end_the_run :
  failed_count empty_pass_then_crash 0 2 = 2 /\
  valid_latencies empty_pass_then_crash 0 2 = [] /\
  fst (run_benchmark empty_pass_then_crash example_self 2 initial_world) =
    Raise (OtherException "FileNotFoundError") /\
  effects
    (trace (snd (run_benchmark empty_pass_then_crash example_self 2
                   initial_world))) =
    [ESubprocess (cmd_of example_self "X25519") 5;
     ESubprocess (cmd_of example_self "X25519") 5;
     ESleep 2;
     ESubprocess (cmd_of example_self "X25519MLKEM768") 5;
     ESubprocess (cmd_of example_self "X25519MLKEM768") 5] /\
  fst (run_benchmark empty_pass_then_crash example_self 2 initial_world) <>
    Raise (RuntimeError "Aucune mesure valide obtenue").
Proof.
  split; [reflexivity |].
  split; [reflexivity |].
  split; [reflexivity |].
  split; [reflexivity |].
  vm_compute. discriminate.
Qed.

(** ** One handshake attempt *)

(** C6, as the program has it.  An attempt whose process times out or
    exits with an error status gives no latency ([None]); any other
    exception is raised on.  An attempt whose process returns gives the
    elapsed milliseconds [m], unless [m] is NaN or below zero, in which
    case it gives no latency.  A latency that is given is at least zero,
    is not NaN and is not below zero; it may be infinite. *)
Theorem measure_latency_outcomes
  (env : Env) (self : self_t) (group : string) (timeout : Z) (w : World) :
  match subprocess_run env (spawned w) with
  | Completed start_time end_time =>
      let m := ((end_time - start_time) * 1000)%float in
      fst (measure_latency env self group timeout w) =
        Ok (if orb (isnan m) (m <? 0)%float then None else Some m)
  | Failed CalledProcessError =>
      fst (measure_latency env self group timeout w) = Ok None
  | Failed TimeoutExpired =>
      fst (measure_latency env self group timeout w) = Ok None
  | Failed e =>
      fst (measure_latency env self group timeout w) = Raise e
  end /\
  (forall l,
      fst (measure_latency env self group timeout w) = Ok (Some l) ->
      (0 <=? l)%float = true /\ isnan l = false /\ (l <? 0)%float = false).
Proof.
  unfold measure_latency, bind, subprocess_run_call.
  destruct (subprocess_run env (spawned w)) as [t0 t1 | e].
  - cbn [fst ret]. cbv zeta. rewrite guard_spec.
    generalize ((t1 - t0) * 1000)%float. intros m.
    split.
    + destruct (isnan m), (m <? 0)%float; reflexivity.
    + intros l. destruct (isnan m) eqn:Hn, (m <? 0)%float eqn:Hl;
        cbn; intros H; try discriminate.
      injection H as <-. rewrite guard_spec, Hn, Hl. auto.
  - destruct e; cbn; (split; [reflexivity | intros l H; discriminate]).
Qed.

(** C6, as the specification states it, fails on a measurement that is
    not finite: when the elapsed milliseconds overflow to infinity, the
    attempt returns infinity as its latency. *)
Lemma infinite_latency_is_returned :
  subprocess_run clock_overflow 0 = Completed 0 0x1p1023 /\
  ((0x1p1023 - 0) * 1000)%float = infinity /\
  isfinite infinity = false /\
  fst (measure_latency clock_overflow example_self "X25519" 5 initial_world)
    = Ok (Some infinity).
Proof. repeat split. Qed.

(** ** The statistics *)

(** C3.  The summary and the table of an analysis depend on the data
    frame alone: whatever the environments, the objects and the worlds of
    two calls on one data frame, both return, with the same summary and
    the same table.  A call spawns nothing and adds nothing to the trace;
    it reads the wall clock once, for the metadata. *)
Theorem analysis_is_deterministic
  (Stats : Type) (describe : list float -> list float -> Stats)
  (env1 env2 : Env) (self1 self2 : self_t) (df : DataFrame) (w1 w2 : World) :
  exists a1 a2 w1' w2',
    analyze_results env1 Stats describe self1 df w1 = (Ok a1, w1') /\
    analyze_results env2 Stats describe self2 df w2 = (Ok a2, w2') /\
    summary a1 = summary a2 /\
    statistics a1 = statistics a2 /\
    trace w1' = trace w1 /\ spawned w1' = spawned w1 /\
    trace w2' = trace w2 /\ spawned w2' = spawned w2.
Proof.
  do 4 eexists.
  split; [reflexivity |].
  split; [reflexivity |].
  cbn. repeat split.
Qed.

(** ** Values that are not finite *)

Lemma isfinite_false_iff (x : float) :
  isfinite x = false <->
  match Prim2SF x with
  | S754_infinity _ | S754_nan => True
  | _ => False
  end.
Proof.
  unfold isfinite.
  rewrite FloatAxioms.ltb_spec, FloatAxioms.abs_spec.
  change (Prim2SF infinity) with (S754_infinity false).
  destruct (Prim2SF x) as [s | s | | s m e]; cbn; intuition discriminate.
Qed.

Lemma eqb_zero_SF (y : float) :
  (y =? 0)%float = true -> exists s, Prim2SF y = S754_zero s.
Proof.
  rewrite FloatAxioms.eqb_spec.
  change (Prim2SF 0%float) with (S754_zero false).
  destruct (Prim2SF y) as [s | s | | s m e]; cbn; intros H;
    try discriminate; try (destruct s; discriminate).
  now exists s.
Qed.

(** A division by zero gives an infinity or NaN. *)
Lemma div_zero_not_finite (x y : float) :
  (y =? 0)%float = true -> isfinite (x / y) = false.
Proof.
  intros H. apply eqb_zero_SF in H. destruct H as [s Hy].
  apply isfinite_false_iff.
  rewrite FloatAxioms.div_spec, Hy. unfold SF64div, SFdiv.
  destruct (Prim2SF x); exact I.
Qed.

Lemma mul_100_not_finite (x : float) :
  isfinite x = false -> isfinite (x * 100) = false.
Proof.
  rewrite !isfinite_false_iff, FloatAxioms.mul_spec.
  replace (Prim2SF 100%float) with (S754_finite false 7036874417766400 (-46))
    by (vm_compute; reflexivity).
  unfold SF64mul, SFmul.
  destruct (Prim2SF x); intros H; try contradiction; exact I.
Qed.

Lemma div_100_not_finite (x : float) :
  isfinite x = false -> isfinite (x / 100) = false.
Proof.
  rewrite !isfinite_false_iff, FloatAxioms.div_spec.
  replace (Prim2SF 100%float) with (S754_finite false 7036874417766400 (-46))
    by (vm_compute; reflexivity).
  unfold SF64div, SFdiv.
  destruct (Prim2SF x); intros H; try contradiction; exact I.
Qed.

Lemma rint_not_finite (x : float) :
  isfinite x = false -> rint x = x.
Proof.
  intros H. apply isfinite_false_iff in H. unfold rint.
  rewrite FloatAxioms.ltb_spec, FloatAxioms.abs_spec.
  replace (Prim2SF 0x1p52%float) with (S754_finite false 4503599627370496 0)
    by (vm_compute; reflexivity).
  destruct (Prim2SF x); try contradiction; reflexivity.
Qed.

(** Rounding to two decimals keeps an infinity or NaN as it is. *)
Lemma round2_not_finite (x : float) :
  isfinite x = false -> isfinite (round2 x) = false.
Proof.
  intros H. unfold round2.
  apply div_100_not_finite.
  rewrite rint_not_finite; apply mul_100_not_finite; exact H.
Qed.

(** ** A baseline of mean zero *)

(** C2, as the program has it.  The analysis has no failure for a
    baseline of mean zero: it returns, and the [delta_percent] it reports
    is then not a finite number (an infinity or NaN). *)
Theorem zero_baseline_gives_non_finite_delta
  (Stats : Type) (describe : list float -> list float -> Stats)
  (env : Env) (self : self_t) (df : DataFrame) (w : World) :
  (series_mean (classic_ms df) =? 0)%float = true ->
  exists a w',
    analyze_results env Stats describe self df w = (Ok a, w') /\
    isfinite (delta_percent (summary a)) = false.
Proof.
  intros H. eexists. eexists. split; [reflexivity |].
  cbn [summary delta_percent].
  apply round2_not_finite, div_zero_not_finite, H.
Qed.

Lemma zero_baseline_gives_non_finite_delta_witness :
  exists a w',
    analyze_results one_of_one unit no_table example_self
      zero_baseline_frame initial_world = (Ok a, w') /\
    isfinite (delta_percent (summary a)) = false.
Proof.
  apply (zero_baseline_gives_non_finite_delta unit no_table one_of_one
           example_self zero_baseline_frame initial_world).
  reflexivity.
Defined.

(** C2, as the specification states it, fails: on a classic column of
    mean zero the analysis returns, with an infinite [delta_percent]
    (NaN when the hybrid mean is zero as well). *)
Lemma zero_baseline_is_not_refused :
  series_mean (classic_ms zero_baseline_frame) = 0%float /\
  fst (analyze_results one_of_one unit no_table example_self
         zero_baseline_frame initial_world) =
    Ok {| summary := {| classic_mean_ms := 0%float;
                        hybrid_mean_ms := 1%float;
                        delta_percent := infinity;
                        sample_size := 1 |};
          statistics := tt;
          metadata := {| meta_timestamp := "2025-07-01T12:00:00";
                         meta_target := "localhost:4433";
                         meta_openssl_path := "/usr/local/bin/openssl" |} |} /\
  fst (analyze_results one_of_one unit no_table example_self
         all_zero_frame initial_world) =
    Ok {| summary := {| classic_mean_ms := 0%float;
                        hybrid_mean_ms := 0%float;
                        delta_percent := nan;
                        sample_size := 1 |};
          statistics := tt;
          metadata := {| meta_timestamp := "2025-07-01T12:00:00";
                         meta_target := "localhost:4433";
                         meta_openssl_path := "/usr/local/bin/openssl" |} |}.
Proof. repeat split. Qed.

(** ** What the result says of the failed attempts *)

(** A completed run followed by its analysis. *)
Lemma main_measure_crash_free
  (Stats : Type) (describe : list float -> list float -> Stats)
  (env : Env) (self : self_t) (iterations : Z) (w : World) :
  let n := Z.to_nat iterations in
  let c := valid_latencies env (spawned w) n in
  let h := valid_latencies env (spawned w + n) n in
  let k := Nat.min (List.length c) (List.length h) in
  let df := {| classic_ms := firstn k c;
               hybrid_ms := firstn k h;
               timestamp := repeat (datetime_now_isoformat env (clock_reads w)) k |} in
  crash_free env (spawned w) (n + n) = true ->
  k <> 0 ->
  exists w',
    main_measure env Stats describe self iterations w =
      (Ok (df,
           {| summary :=
                {| classic_mean_ms := round2 (series_mean (firstn k c));
                   hybrid_mean_ms := round2 (series_mean (firstn k h));
                   delta_percent :=
                     round2 (100 * (series_mean (firstn k h) -
                                    series_mean (firstn k c)) /
                             series_mean (firstn k c))%float;
                   sample_size := k |};
              statistics := describe (firstn k c) (firstn k h);
              metadata :=
                {| meta_timestamp :=
                     datetime_now_isoformat env (S (clock_reads w));
                   meta_target := target self;
                   meta_openssl_path := openssl_path self |} |}),
       w') /\
    In (ELog INFO (LogDone (List.length c) (List.length h))) (trace w').
Proof.
  intros n c h k df Hcf Hk.
  pose proof (run_benchmark_crash_free env self iterations w Hcf) as Hrun.
  cbv zeta in Hrun. fold n c h k in Hrun.
  apply Nat.eqb_neq in Hk. rewrite Hk in Hrun.
  unfold main_measure. erewrite bind_ok by exact Hrun.
  unfold analyze_results, bind, datetime_now, ret.
  assert (Hlen : List.length (firstn k c) = k)
    by (rewrite length_firstn; unfold k; lia).
  unfold len_df.
  cbn [classic_ms hybrid_ms clock_reads spawned trace].
  rewrite Hlen.
  eexists. split.
  - reflexivity.
  - cbn [trace]. rewrite !in_app_iff. right. right. left. reflexivity.
Qed.

(** C9, as the program has it.  The result of a completed run (the data
    frame and its analysis) is made of the paired latencies, their means,
    the relative difference and their number; it holds no count of the
    attempts made or failed.  Two completed runs that agree on the paired
    latencies and on the clock give the same result, whatever the number
    of their iterations and of their failed attempts; the numbers of
    valid latencies of the two passes only go to the logger. *)
Theorem result_ignores_failed_attempts
  (Stats : Type) (describe : list float -> list float -> Stats)
  (self : self_t) (env1 env2 : Env) (iterations1 iterations2 : Z)
  (w1 w2 : World) :
  let n1 := Z.to_nat iterations1 in
  let n2 := Z.to_nat iterations2 in
  let c1 := valid_latencies env1 (spawned w1) n1 in
  let h1 := valid_latencies env1 (spawned w1 + n1) n1 in
  let c2 := valid_latencies env2 (spawned w2) n2 in
  let h2 := valid_latencies env2 (spawned w2 + n2) n2 in
  let k1 := Nat.min (List.length c1) (List.length h1) in
  let k2 := Nat.min (List.length c2) (List.length h2) in
  crash_free env1 (spawned w1) (n1 + n1) = true ->
  crash_free env2 (spawned w2) (n2 + n2) = true ->
  k1 <> 0 ->
  firstn k1 c1 = firstn k2 c2 ->
  firstn k1 h1 = firstn k2 h2 ->
  datetime_now_isoformat env1 (clock_reads w1) =
    datetime_now_isoformat env2 (clock_reads w2) ->
  datetime_now_isoformat env1 (S (clock_reads w1)) =
    datetime_now_isoformat env2 (S (clock_reads w2)) ->
  exists df a,
    fst (main_measure env1 Stats describe self iterations1 w1) = Ok (df, a) /\
    fst (main_measure env2 Stats describe self iterations2 w2) = Ok (df, a) /\
    classic_ms df = firstn k1 c1 /\
    hybrid_ms df = firstn k1 h1 /\
    sample_size (summary a) = k1 /\
    In (ELog INFO (LogDone (List.length c1) (List.length h1)))
       (trace (snd (main_measure env1 Stats describe self iterations1 w1))) /\
    In (ELog INFO (LogDone (List.length c2) (List.length h2)))
       (trace (snd (main_measure env2 Stats describe self iterations2 w2))).
Proof.
  intros n1 n2 c1 h1 c2 h2 k1 k2 Hcf1 Hcf2 Hk Hc Hh Hclk Hclk'.
  assert (Hkk : k1 = k2).
  { assert (L1 : List.length (firstn k1 c1) = k1)
      by (rewrite length_firstn; unfold k1; lia).
    assert (L2 : List.length (firstn k2 c2) = k2)
      by (rewrite length_firstn; unfold k2; lia).
    rewrite Hc in L1. congruence. }
  assert (Hk2 : k2 <> 0) by congruence.
  destruct (main_measure_crash_free Stats describe env1 self iterations1 w1
              Hcf1 Hk) as (w1' & Hm1 & Hl1).
  destruct (main_measure_crash_free Stats describe env2 self iterations2 w2
              Hcf2 Hk2) as (w2' & Hm2 & Hl2).
  fold n1 c1 h1 k1 in Hm1, Hl1. fold n2 c2 h2 k2 in Hm2, Hl2.
  rewrite Hm1, Hm2. cbn [fst snd].
  do 2 eexists. split; [reflexivity |].
  split.
  - rewrite <- Hc, <- Hh, <- Hkk, <- Hclk, <- Hclk'. reflexivity.
  - cbn [classic_ms hybrid_ms summary sample_size]. auto.
Qed.

Lemma result_ignores_failed_attempts_witness :
  failed_count one_of_one 0 2 = 0 /\
  failed_count one_of_two 0 4 = 2 /\
  exists df a,
    fst (main_measure one_of_one unit no_table example_self 1 initial_world)
      = Ok (df, a) /\
    fst (main_measure one_of_two unit no_table example_self 2 initial_world)
      = Ok (df, a) /\
    classic_ms df = [10%float] /\
    hybrid_ms df = [15%float] /\
    sample_size (summary a) = 1 /\
    In (ELog INFO (LogDone 1 1))
       (trace (snd (main_measure one_of_one unit no_table example_self 1
                      initial_world))) /\
    In (ELog INFO (LogDone 1 1))
       (trace (snd (main_measure one_of_two unit no_table example_self 2
                      initial_world))).
Proof.
  split; [reflexivity |].
  split; [reflexivity |].
  apply (result_ignores_failed_attempts unit no_table example_self
           one_of_one one_of_two 1 2 initial_world initial_world);
    try reflexivity.
  discriminate.
Defined.

(** C9, as the specification states it, fails: a run of one iteration
    without any failure and a run of two iterations that loses half of
    its attempts produce the very same data frame and analysis, so the
    result cannot tell the loss. *)
Lemma result_hides_the_loss :
  failed_count one_of_one 0 2 = 0 /\
  failed_count one_of_two 0 4 = 2 /\
  fst (main_measure one_of_one unit no_table example_self 1 initial_world) =
  fst (main_measure one_of_two unit no_table example_self 2 initial_world) /\
  fst (main_measure one_of_two unit no_table example_self 2 initial_world) =
    Ok ({| classic_ms := [10%float];
           hybrid_ms := [15%float];
           timestamp := ["2025-07-01T12:00:00"] |},
        {| summary := {| classic_mean_ms := 10%float;
                         hybrid_mean_ms := 15%float;
                         delta_percent := 50%float;
                         sample_size := 1 |};
           statistics := tt;
           metadata := {| meta_timestamp := "2025-07-01T12:00:00";
                          meta_target := "localhost:4433";
                          meta_openssl_path := "/usr/local/bin/openssl" |} |}).
Proof. repeat split; vm_compute; reflexivity. Qed.

(** * Beyond the harness *)

Example example_os_paths :
  possible_paths example_os =
  ["/home/user/ossl-3.5/bin/openssl"; "/usr/local/bin/openssl";
   "/usr/bin/openssl"] /\
  _find_openssl example_os = Ok "/usr/bin/openssl" /\
  dict_get (_setup_environment example_os) "LD_LIBRARY_PATH" =
    Some "/home/user/ossl-3.5/lib64" /\
  dict_get (_setup_environment example_os) "PATH" = Some "/usr/bin".
Proof. repeat split. Qed.

(** ** Construction of the object *)

Lemma find_first {A : Type} (f : A -> bool) (l : list A) :
  match find f l with
  | Some x =>
      f x = true /\
      exists before after,
        l = before ++ x :: after /\ Forall (fun y => f y = false) before
  | None => Forall (fun y => f y = false) l
  end.
Proof.
  induction l as [| a l IH]; simpl.
  - constructor.
  - destruct (f a) eqn:Ha.
    + split; [exact Ha |]. exists [], l. split; [reflexivity | constructor].
    + destruct (find f l) as [x |].
      * destruct IH as (Hx & before & after & -> & Hb).
        split; [exact Hx |]. exists (a :: before), after.
        split; [reflexivity | constructor; assumption].
      * constructor; assumption.
Qed.

(** X1.  [_find_openssl] returns the first of its three candidates, in
    the order home build, [/usr/local/bin], [/usr/bin], that exists: the
    path it returns exists and every candidate before it is missing.  It
    raises [RuntimeError] exactly when none of the three exists. *)
Theorem find_openssl_first_existing (os : OS) :
  match _find_openssl os with
  | Ok path =>
      os_path_exists os path = true /\
      exists before after,
        possible_paths os = before ++ path :: after /\
        Forall (fun p => os_path_exists os p = false) before
  | Raise e =>
      e = RuntimeError "OpenSSL non trouvé. Veuillez spécifier le chemin." /\
      Forall (fun p => os_path_exists os p = false) (possible_paths os)
  end.
Proof.
  unfold _find_openssl.
  pose proof (find_first (os_path_exists os) (possible_paths os)) as H.
  destruct (find (os_path_exists os) (possible_paths os)); auto.
Qed.

(** X2.  When the output directory can be made, the construction of the
    object succeeds exactly when a non-empty executable path is given or
    one of the three candidates exists.  A given path is taken as it is,
    whether the file exists or not; [None] and the empty string both
    lead to the search.  The target is kept as given, the directory as
    the [Path] made of it. *)
Theorem init_succeeds_iff
  (os : OS) (openssl_path : option string) (tgt out : string) :
  path_mkdir os out = None ->
  let given := match openssl_path with
               | Some (String _ _) => true
               | _ => false
               end in
  ((exists b, __init__ os openssl_path tgt out = Ok b) <->
   given = true \/
   Exists (fun p => os_path_exists os p = true) (possible_paths os)) /\
  (forall b,
      __init__ os openssl_path tgt out = Ok b ->
      target (self_harness b) = tgt /\
      output_dir b = pathlib_Path os out /\
      (given = true -> Some (TLSBenchmark.openssl_path (self_harness b)) = openssl_path) /\
      (given = false -> _find_openssl os = Ok (TLSBenchmark.openssl_path (self_harness b)))).
Proof.
  intros Hmk given. unfold __init__. rewrite Hmk.
  pose proof (find_first (os_path_exists os) (possible_paths os)) as Hf.
  unfold _find_openssl.
  assert (Hsearch :
    match find (os_path_exists os) (possible_paths os) with
    | Some _ => Exists (fun p => os_path_exists os p = true) (possible_paths os)
    | None => ~ Exists (fun p => os_path_exists os p = true) (possible_paths os)
    end).
  { destruct (find (os_path_exists os) (possible_paths os)) as [x |].
    - destruct Hf as (Hx & before & after & Hl & _).
      apply Exists_exists. exists x. split; [| exact Hx].
      rewrite Hl. apply in_or_app. right. left. reflexivity.
    - intros He. apply Exists_exists in He. destruct He as (p & Hin & Hp).
      rewrite Forall_forall in Hf. rewrite (Hf p Hin) in Hp. discriminate. }
  destruct openssl_path as [[| a p] |]; subst given; cbn match;
    try (destruct (find (os_path_exists os) (possible_paths os)) as [x |] eqn:Hfind).
  all: split;
    [ split;
      [ intros [b Hb]; try discriminate; auto
      | intros [Hg | He]; try discriminate; try contradiction; eauto ]
    | intros b Hb; try discriminate; injection Hb as <-; cbn;
      repeat split; try reflexivity; intros; try discriminate; reflexivity ].
Qed.

Lemma init_succeeds_iff_witness :
  ((exists b, __init__ example_os (Some "/opt/missing/openssl")
                "localhost:4433" "data/output/" = Ok b) <->
   true = true \/
   Exists (fun p => os_path_exists example_os p = true)
          (possible_paths example_os)) /\
  (forall b,
      __init__ example_os (Some "/opt/missing/openssl")
        "localhost:4433" "data/output/" = Ok b ->
      target (self_harness b) = "localhost:4433" /\
      output_dir b = "data/output" /\
      (true = true ->
       Some (openssl_path (self_harness b)) = Some "/opt/missing/openssl") /\
      (true = false ->
       _find_openssl example_os = Ok (openssl_path (self_harness b)))).
Proof.
  apply (init_succeeds_iff example_os (Some "/opt/missing/openssl")
           "localhost:4433" "data/output/").
  reflexivity.
Defined.

(** ** The environment of the processes *)

Lemma dict_get_set_same (d : dict) (k v : string) :
  dict_get (dict_set d k v) k = Some v.
Proof.
  induction d as [| [k' v'] d IH]; simpl.
  - now rewrite String.eqb_refl.
  - destruct (String.eqb k' k) eqn:E; simpl.
    + now rewrite String.eqb_refl.
    + now rewrite E.
Qed.

Lemma dict_get_set_other (d : dict) (k k' v : string) :
  String.eqb k k' = false ->
  dict_get (dict_set d k v) k' = dict_get d k'.
Proof.
  intros Hk. induction d as [| [k0 v0] d IH]; simpl.
  - now rewrite Hk.
  - destruct (String.eqb k0 k) eqn:E; simpl.
    + rewrite Hk. apply String.eqb_eq in E. subst k0. now rewrite Hk.
    + now rewrite IH.
Qed.

(** X3.  The environment given to the processes sets
    [LD_LIBRARY_PATH], [OPENSSL_CONF] and [OPENSSL_MODULES] to fixed
    places under [~/ossl-3.5], whatever their value in the calling
    environment (a library path already set is replaced, not extended),
    and keeps every other variable as it is. *)
Theorem setup_environment_lookup (os : OS) (k : string) :
  dict_get (_setup_environment os) k =
  if String.eqb k "OPENSSL_MODULES"
  then Some (os_path_expanduser os "~/ossl-3.5" ++ "/lib64/ossl-modules")%string
  else if String.eqb k "OPENSSL_CONF"
  then Some (os_path_expanduser os "~/ossl-3.5" ++ "/ssl/openssl.cnf")%string
  else if String.eqb k "LD_LIBRARY_PATH"
  then Some (os_path_expanduser os "~/ossl-3.5" ++ "/lib64")%string
  else dict_get (os_environ os) k.
Proof.
  unfold _setup_environment. cbv zeta.
  destruct (String.eqb k "OPENSSL_MODULES") eqn:E1.
  - apply String.eqb_eq in E1. subst k. apply dict_get_set_same.
  - rewrite dict_get_set_other by (rewrite String.eqb_sym; exact E1).
    destruct (String.eqb k "OPENSSL_CONF") eqn:E2.
    + apply String.eqb_eq in E2. subst k. apply dict_get_set_same.
    + rewrite dict_get_set_other by (rewrite String.eqb_sym; exact E2).
      destruct (String.eqb k "LD_LIBRARY_PATH") eqn:E3.
      * apply String.eqb_eq in E3. subst k. apply dict_get_set_same.
      * apply dict_get_set_other. rewrite String.eqb_sym. exact E3.
Qed.

(** ** What a pass logs *)

Lemma failed_raised_rejected (env : Env) (lo n : nat) :
  failed_count env lo n = raised_count env lo n + rejected_count env lo n.
Proof.
  unfold failed_count, raised_count, rejected_count.
  induction (seq lo n) as [| i l IH]; simpl.
  - reflexivity.
  - destruct (subprocess_run env i) as [t0 t1 | e] eqn:Hi; simpl.
    + destruct (if (0 <=? (t1 - t0) * 1000)%float
                then Some ((t1 - t0) * 1000)%float else None);
        simpl; lia.
    + lia.
Qed.

Lemma warnings_pass_events (env : Env) (self : self_t) (group : string)
  (n : nat) : forall lo,
  List.length (filter is_warning (pass_events env self group lo n)) =
  raised_count env lo n.
Proof.
  unfold raised_count.
  induction n as [| n IH]; intros lo.
  - reflexivity.
  - rewrite pass_events_S, filter_app, length_app, IH.
    cbn [seq filter]. unfold attempt_events.
    destruct (subprocess_run env lo); reflexivity.
Qed.

(** X4.  In a pass none of whose attempts raises past the harness, one
    warning is logged for each attempt whose process raised (time-out or
    error status), and none for an attempt whose process returned with a
    measurement the guard refuses: such an attempt is dropped without a
    trace in the log.  The failed attempts are those that raised plus
    those the guard refused. *)
Theorem pass_logs_raised_attempts_only
  (env : Env) (self : self_t) (group : string) (n : nat) (w : World) :
  crash_free env (spawned w) n = true ->
  exists latencies w' evs,
    latencies_loop env self group n [] w = (Ok latencies, w') /\
    trace w' = trace w ++ evs /\
    List.length (filter is_warning evs) = raised_count env (spawned w) n /\
    failed_count env (spawned w) n =
      raised_count env (spawned w) n + rejected_count env (spawned w) n.
Proof.
  intros Hcf.
  do 2 eexists. exists (pass_events env self group (spawned w) n).
  split; [apply (latencies_loop_crash_free env self group n [] w Hcf) |].
  cbn [trace].
  split; [reflexivity |].
  split; [apply warnings_pass_events | apply failed_raised_rejected].
Qed.

Lemma pass_logs_raised_attempts_only_witness :
  raised_count clock_steps_back 0 3 = 1 /\
  rejected_count clock_steps_back 0 3 = 1 /\
  exists latencies w' evs,
    latencies_loop clock_steps_back example_self "X25519" 3 [] initial_world
      = (Ok latencies, w') /\
    trace w' = [] ++ evs /\
    List.length (filter is_warning evs) = raised_count clock_steps_back 0 3 /\
    failed_count clock_steps_back 0 3 =
      raised_count clock_steps_back 0 3 + rejected_count clock_steps_back 0 3.
Proof.
  split; [reflexivity |].
  split; [reflexivity |].
  apply (pass_logs_raised_attempts_only clock_steps_back example_self
           "X25519" 3 initial_world).
  reflexivity.
Defined.

(** ** An exception that is not caught *)

Lemma latencies_loop_first_crash (env : Env) (self : self_t) (group : string)
  (n : nat) : forall i latencies w e,
  i < n ->
  crash_free env (spawned w) i = true ->
  subprocess_run env (spawned w + i) = Failed e ->
  handled (Failed e) = false ->
  exists w',
    latencies_loop env self group n latencies w = (Raise e, w') /\
    spawned w' = spawned w + i + 1 /\
    clock_reads w' = clock_reads w.
Proof.
  induction n as [| n IH]; intros i latencies w e Hi Hcf Hout Hun.
  - lia.
  - cbn [latencies_loop]. destruct i as [| i].
    + rewrite Nat.add_0_r in Hout.
      assert (Hh : handled (subprocess_run env (spawned w)) = false)
        by (rewrite Hout; exact Hun).
      destruct (measure_latency_unhandled env self group 5 w Hh)
        as (e' & He' & Hm).
      rewrite Hout in He'. injection He' as <-.
      eexists. split; [erewrite bind_raise by exact Hm; reflexivity |].
      cbn [spawned clock_reads]. split; [lia | reflexivity].
    + rewrite crash_free_S in Hcf. apply andb_prop in Hcf.
      destruct Hcf as [Hh Hcf].
      erewrite bind_ok by (apply measure_latency_handled; exact Hh).
      match goal with
      | |- context [latencies_loop _ _ _ _ ?l ?w1] =>
          destruct (IH i l w1 e) as (w' & Hrun & Hs & Hc)
      end; cbn [spawned clock_reads trace]; try assumption; try lia.
      * rewrite <- Hout. f_equal. lia.
      * exists w'. cbn [spawned clock_reads] in Hs, Hc.
        split; [exact Hrun |]. split; [lia | exact Hc].
Qed.

(** X5.  An exception of a process that [measure_latency] does not catch
    (the executable cannot be started, say) ends the run at once: when the
    attempts before the [i]-th raise nothing of the kind and the [i]-th
    does, [run_benchmark] raises that very exception, having spawned
    exactly [i + 1] processes; no further attempt is made and the wall
    clock is not read. *)
Theorem uncaught_exception_aborts_run
  (env : Env) (self : self_t) (iterations : Z) (w : World) (i : nat) (e : exn) :
  i < Z.to_nat iterations + Z.to_nat iterations ->
  crash_free env (spawned w) i = true ->
  subprocess_run env (spawned w + i) = Failed e ->
  handled (Failed e) = false ->
  exists w',
    run_benchmark env self iterations w = (Raise e, w') /\
    spawned w' = spawned w + i + 1 /\
    clock_reads w' = clock_reads w.
Proof.
  set (n := Z.to_nat iterations).
  intros Hi Hcf Hout Hun.
  unfold run_benchmark, logger_info, time_sleep, emit.
  unfold bind at 1. unfold bind at 1. fold n.
  destruct (Nat.lt_ge_cases i n) as [Hlt | Hge].
  - match goal with
    | |- context [bind (latencies_loop _ _ ?g _ ?l) _ ?w1] =>
        destruct (latencies_loop_first_crash env self g n i l w1 e Hlt Hcf Hout Hun)
          as (w' & Hrun & Hs & Hc)
    end.
    erewrite bind_raise by exact Hrun.
    exists w'. cbn [spawned clock_reads] in Hs, Hc. auto.
  - replace i with (n + (i - n)) in Hcf by lia.
    rewrite crash_free_app in Hcf. apply andb_prop in Hcf.
    destruct Hcf as [H1 H2].
    erewrite bind_ok by (apply latencies_loop_crash_free; exact H1).
    cbn [spawned clock_reads trace app].
    unfold bind at 1. unfold bind at 1.
    match goal with
    | |- context [bind (latencies_loop _ _ ?g _ ?l) _ ?w1] =>
        destruct (latencies_loop_first_crash env self g n (i - n) l w1 e)
          as (w' & Hrun & Hs & Hc)
    end; cbn [spawned clock_reads trace]; try assumption; try lia.
    + rewrite <- Hout. f_equal. lia.
    + erewrite bind_raise by exact Hrun.
      exists w'. cbn [spawned clock_reads] in Hs, Hc.
      split; [reflexivity |]. split; [lia | exact Hc].
Qed.

Lemma uncaught_exception_aborts_run_witness :
  exists w',
    run_benchmark executable_vanishes example_self 2 initial_world =
      (Raise (OtherException "FileNotFoundError"), w') /\
    spawned w' = 0 + 2 + 1 /\
    clock_reads w' = 0.
Proof.
  apply (uncaught_exception_aborts_run executable_vanishes example_self 2
           initial_world 2 (OtherException "FileNotFoundError"));
    try reflexivity.
  cbn. lia.
Defined.

(** ** The frame a run returns *)

Lemma valid_latencies_guard (env : Env) (lo n : nat) :
  Forall (fun l => (0 <=? l)%float = true) (valid_latencies env lo n).
Proof.
  unfold valid_latencies.
  induction (seq lo n) as [| i l IH]; simpl.
  - constructor.
  - apply Forall_app. split; [| exact IH].
    destruct (subprocess_run env i) as [t0 t1 | e]; simpl.
    + destruct (0 <=? (t1 - t0) * 1000)%float eqn:Hg; repeat constructor.
      exact Hg.
    + constructor.
Qed.

Lemma valid_latencies_length (env : Env) (lo n : nat) :
  List.length (valid_latencies env lo n) <= n.
Proof.
  pose proof (attempts_partition env lo n). lia.
Qed.

Lemma Forall_firstn {A : Type} (P : A -> Prop) (k : nat) (l : list A) :
  Forall P l -> Forall P (firstn k l).
Proof.
  revert l. induction k as [| k IH]; intros l H.
  - constructor.
  - destruct H as [| x l Hx Hl]; simpl; constructor; auto.
Qed.

(** X6.  A data frame returned by [run_benchmark] has three columns of
    one length, which is at least one and at most the number of
    iterations; each of its latencies passed the guard, so none is NaN
    or below zero; all its time stamps are the one reading of the wall
    clock that the run makes.  Both passes were run in full. *)
Theorem returned_frame_invariants
  (env : Env) (self : self_t) (iterations : Z) (w w' : World) (df : DataFrame) :
  run_benchmark env self iterations w = (Ok df, w') ->
  well_formed df /\
  1 <= len_df df <= Z.to_nat iterations /\
  Forall (fun l => (0 <=? l)%float = true /\ isnan l = false /\
                   (l <? 0)%float = false) (classic_ms df) /\
  Forall (fun l => (0 <=? l)%float = true /\ isnan l = false /\
                   (l <? 0)%float = false) (hybrid_ms df) /\
  Forall (fun t => t = datetime_now_isoformat env (clock_reads w))
         (timestamp df) /\
  clock_reads w' = S (clock_reads w) /\
  spawned w' = spawned w + Z.to_nat iterations + Z.to_nat iterations.
Proof.
  intros Hrun.
  pose proof (run_benchmark_ok_crash_free env self iterations w df w' Hrun)
    as Hcf.
  pose proof (run_benchmark_crash_free env self iterations w Hcf) as Hspec.
  cbv zeta in Hspec. rewrite Hrun in Hspec.
  set (n := Z.to_nat iterations) in *.
  set (c := valid_latencies env (spawned w) n) in *.
  set (h := valid_latencies env (spawned w + n) n) in *.
  set (k := Nat.min (List.length c) (List.length h)) in *.
  destruct (k =? 0)%nat eqn:Hk; [discriminate |].
  apply Nat.eqb_neq in Hk.
  injection Hspec as -> ->.
  pose proof (valid_latencies_length env (spawned w) n) as Lc. fold c in Lc.
  pose proof (valid_latencies_length env (spawned w + n) n) as Lh. fold h in Lh.
  assert (Hguard : forall l : list float,
             Forall (fun x => (0 <=? x)%float = true) l ->
             Forall (fun x => (0 <=? x)%float = true /\ isnan x = false /\
                              (x <? 0)%float = false) l).
  { intros l Hl. eapply Forall_impl; [| exact Hl].
    intros x Hx. cbv beta in Hx. split; [exact Hx |].
    rewrite guard_spec in Hx. apply andb_prop in Hx. destruct Hx as [H1 H2].
    split; [now destruct (isnan x) | now destruct (x <? 0)%float]. }
  unfold well_formed, len_df. cbn [classic_ms hybrid_ms timestamp clock_reads spawned].
  rewrite !length_firstn, repeat_length.
  repeat split; try lia.
  - apply Hguard, Forall_firstn, valid_latencies_guard.
  - apply Hguard, Forall_firstn, valid_latencies_guard.
  - apply Forall_forall. intros t Ht. now apply repeat_spec in Ht.
Qed.

Lemma returned_frame_invariants_witness :
  well_formed scenario_frame /\
  1 <= len_df scenario_frame <= Z.to_nat 5 /\
  Forall (fun l => (0 <=? l)%float = true /\ isnan l = false /\
                   (l <? 0)%float = false) (classic_ms scenario_frame) /\
  Forall (fun l => (0 <=? l)%float = true /\ isnan l = false /\
                   (l <? 0)%float = false) (hybrid_ms scenario_frame) /\
  Forall (fun t => t = datetime_now_isoformat two_timeouts_in_five 0)
         (timestamp scenario_frame) /\
  clock_reads
    (snd (run_benchmark two_timeouts_in_five example_self 5 initial_world))
    = 1 /\
  spawned
    (snd (run_benchmark two_timeouts_in_five example_self 5 initial_world))
    = 0 + Z.to_nat 5 + Z.to_nat 5.
Proof.
  apply (returned_frame_invariants two_timeouts_in_five example_self 5
           initial_world).
  vm_compute. reflexivity.
Defined.

(** X7.  With a number of iterations that is zero or negative the loops
    do not run: whatever the environment, no process is spawned, the two
    seconds are still waited, and the run raises
    [RuntimeError("Aucune mesure valide obtenue")]. *)
Theorem no_iteration_no_sample
  (env : Env) (self : self_t) (iterations : Z) (w : World) :
  (iterations <= 0)%Z ->
  run_benchmark env self iterations w =
  (Raise (RuntimeError "Aucune mesure valide obtenue"),
   {| spawned := spawned w;
      clock_reads := clock_reads w;
      trace := trace w ++
               [ELog INFO (LogStart iterations); ELog INFO LogClassicPass;
                ESleep 2; ELog INFO LogHybridPass] |}).
Proof.
  intros H. unfold run_benchmark.
  replace (Z.to_nat iterations) with 0 by lia.
  unfold bind, logger_info, time_sleep, emit, raise. cbn.
  rewrite <- !app_assoc. reflexivity.
Qed.

Lemma no_iteration_no_sample_witness :
  run_benchmark two_timeouts_in_five example_self 0 initial_world =
  (Raise (RuntimeError "Aucune mesure valide obtenue"),
   {| spawned := 0;
      clock_reads := 0;
      trace := [] ++
               [ELog INFO (LogStart 0); ELog INFO LogClassicPass;
                ESleep 2; ELog INFO LogHybridPass] |}).
Proof.
  apply (no_iteration_no_sample two_timeouts_in_five example_self 0
           initial_world).
  discriminate.
Defined.

(** ** The rows given to the plot *)

Lemma filtered_rows (cs : list float) : forall (hs : list float) (ts : list string),
  List.length cs = List.length hs ->
  List.length hs = List.length ts ->
  let mask := display_mask cs hs in
  combine (boolean_index mask cs)
          (combine (boolean_index mask hs) (boolean_index mask ts)) =
    filter displayed (combine cs (combine hs ts)) /\
  List.length (boolean_index mask cs) = List.length (boolean_index mask hs) /\
  List.length (boolean_index mask hs) = List.length (boolean_index mask ts) /\
  List.length (boolean_index mask cs) <= List.length cs.
Proof.
  induction cs as [| c cs IH]; intros [| h hs] [| t ts] H1 H2;
    try discriminate; cbn [display_mask].
  - repeat split; constructor.
  - injection H1 as H1. injection H2 as H2.
    destruct (IH hs ts H1 H2) as (Hr & L1 & L2 & L3).
    cbn [boolean_index combine filter]. unfold displayed at 1. cbn [fst snd].
    destruct ((c <? 300)%float && (h <? 300)%float)%bool;
      cbn [combine List.length]; rewrite ?Hr; repeat split; lia.
Qed.

(** X8.  From a frame whose columns have one length, the plot is given
    exactly the rows whose two latencies are both below 300 ms, in their
    order and with their pairing and time stamp kept: a row with one
    latency at or above 300 ms, or NaN, is left out whole.  The frame so
    filtered has again columns of one length, and no more rows than the
    frame the statistics are computed on. *)
Theorem plot_keeps_rows_below_bound (df : DataFrame) :
  well_formed df ->
  well_formed (df_filtered df) /\
  rows (df_filtered df) = filter displayed (rows df) /\
  Forall (fun r => (fst r <? 300)%float = true /\
                   (fst (snd r) <? 300)%float = true)
         (rows (df_filtered df)) /\
  len_df (df_filtered df) <= len_df df.
Proof.
  intros [H1 H2].
  destruct (filtered_rows (classic_ms df) (hybrid_ms df) (timestamp df) H1 H2)
    as (Hr & L1 & L2 & L3).
  unfold well_formed, rows, len_df, df_filtered. cbn [classic_ms hybrid_ms timestamp].
  split; [split; assumption |].
  split; [exact Hr |].
  split; [| exact L3].
  rewrite Hr. apply Forall_forall. intros r Hin.
  apply filter_In in Hin. destruct Hin as [_ Hd].
  unfold displayed in Hd. apply andb_prop in Hd. exact Hd.
Qed.

Lemma plot_keeps_rows_below_bound_witness :
  well_formed (df_filtered frame_with_outliers) /\
  rows (df_filtered frame_with_outliers) =
    filter displayed (rows frame_with_outliers) /\
  Forall (fun r => (fst r <? 300)%float = true /\
                   (fst (snd r) <? 300)%float = true)
         (rows (df_filtered frame_with_outliers)) /\
  len_df (df_filtered frame_with_outliers) <= len_df frame_with_outliers.
Proof.
  apply (plot_keeps_rows_below_bound frame_with_outliers).
  split; reflexivity.
Defined.

Example outliers_are_analysed_but_not_plotted :
  classic_ms (df_filtered frame_with_outliers) = [10; 11]%float /\
  hybrid_ms (df_filtered frame_with_outliers) = [15; 14]%float /\
  series_mean (classic_ms frame_with_outliers) = 95.75%float.
Proof. repeat split. Qed.

Lemma filtered_again (cs : list float) : forall (hs : list float) (ts : list string),
  List.length cs = List.length hs ->
  List.length hs = List.length ts ->
  let mask := display_mask cs hs in
  let mask' := display_mask (boolean_index mask cs) (boolean_index mask hs) in
  boolean_index mask' (boolean_index mask cs) = boolean_index mask cs /\
  boolean_index mask' (boolean_index mask hs) = boolean_index mask hs /\
  boolean_index mask' (boolean_index mask ts) = boolean_index mask ts.
Proof.
  induction cs as [| c cs IH]; intros [| h hs] [| t ts] H1 H2;
    try discriminate; cbn [display_mask].
  - repeat split.
  - injection H1 as H1. injection H2 as H2.
    destruct (IH hs ts H1 H2) as (Hc & Hh & Ht).
    cbn [boolean_index].
    destruct ((c <? 300)%float && (h <? 300)%float)%bool eqn:E.
    + cbn [display_mask boolean_index]. rewrite E. cbn [boolean_index].
      rewrite Hc, Hh, Ht. repeat split.
    + repeat split; assumption.
Qed.

Lemma filtered_nothing (cs : list float) : forall (hs : list float) (ts : list string),
  List.length cs = List.length hs ->
  List.length hs = List.length ts ->
  Forall (fun r => displayed r = true) (combine cs (combine hs ts)) ->
  let mask := display_mask cs hs in
  boolean_index mask cs = cs /\
  boolean_index mask hs = hs /\
  boolean_index mask ts = ts.
Proof.
  induction cs as [| c cs IH]; intros [| h hs] [| t ts] H1 H2 Hall;
    try discriminate; cbn [display_mask].
  - repeat split.
  - injection H1 as H1. injection H2 as H2.
    cbn [combine] in Hall. inversion Hall as [| r l Hr Hl]; subst.
    unfold displayed in Hr. cbn [fst snd] in Hr.
    destruct (IH hs ts H1 H2 Hl) as (Hc & Hh & Ht).
    rewrite Hr. cbn [boolean_index]. rewrite Hc, Hh, Ht. repeat split.
Qed.

(** X9.  Filtering for the plot changes nothing the second time, and
    changes nothing at all in a frame whose rows are all below the
    bound: the frame given to the plot is then the frame that was
    analysed. *)
Theorem plot_filter_idempotent (df : DataFrame) :
  well_formed df ->
  df_filtered (df_filtered df) = df_filtered df /\
  (Forall (fun r => displayed r = true) (rows df) -> df_filtered df = df).
Proof.
  intros [H1 H2]. split.
  - destruct (filtered_again (classic_ms df) (hybrid_ms df) (timestamp df) H1 H2)
      as (Hc & Hh & Ht).
    unfold df_filtered. cbn [classic_ms hybrid_ms timestamp].
    cbv zeta in Hc, Hh, Ht. rewrite Hc, Hh, Ht. reflexivity.
  - intros Hall.
    destruct (filtered_nothing (classic_ms df) (hybrid_ms df) (timestamp df)
                H1 H2 Hall) as (Hc & Hh & Ht).
    unfold df_filtered. cbv zeta in Hc, Hh, Ht. rewrite Hc, Hh, Ht.
    now destruct df.
Qed.

Lemma plot_filter_idempotent_witness :
  df_filtered (df_filtered frame_with_outliers) =
    df_filtered frame_with_outliers /\
  (Forall (fun r => displayed r = true) (rows frame_with_outliers) ->
   df_filtered frame_with_outliers = frame_with_outliers).
Proof.
  apply (plot_filter_idempotent frame_with_outliers).
  split; reflexivity.
Defined.

Lemma map_snd_combine {A B : Type} (l : list A) : forall (l' : list B),
  List.length l = List.length l' -> map snd (combine l l') = l'.
Proof.
  induction l as [| a l IH]; intros [| b l'] H; try discriminate.
  - reflexivity.
  - injection H as H. simpl. now rewrite IH.
Qed.

Lemma map_fst_combine {A B : Type} (l : list A) : forall (l' : list B),
  List.length l = List.length l' -> map fst (combine l l') = l.
Proof.
  induction l as [| a l IH]; intros [| b l'] H; try discriminate.
  - reflexivity.
  - injection H as H. simpl. now rewrite IH.
Qed.

(** X10.  The long format loses nothing of the filtered frame: it has
    two rows for each of its rows, the rows labelled [Classique] carry
    the classic column in order, the rows labelled [Hybride] the hybrid
    column, each with the time stamp of its row. *)
Theorem melt_round_trip (df : DataFrame) :
  well_formed df ->
  let f := df_filtered df in
  let of_type ty :=
    filter (fun r => String.eqb (melted_Type r) ty) (df_melted df) in
  List.length (df_melted df) = 2 * len_df f /\
  map melted_Latence (of_type "Classique") = classic_ms f /\
  map melted_Latence (of_type "Hybride") = hybrid_ms f /\
  map melted_timestamp (of_type "Classique") = timestamp f /\
  map melted_timestamp (of_type "Hybride") = timestamp f.
Proof.
  intros Hwf f of_type.
  destruct (filtered_rows (classic_ms df) (hybrid_ms df) (timestamp df)
              (proj1 Hwf) (proj2 Hwf))
    as (_ & L1 & L2 & _).
  assert (Lc : List.length (timestamp f) = List.length (classic_ms f))
    by (unfold f, df_filtered; cbn [classic_ms hybrid_ms timestamp]; lia).
  assert (Lh : List.length (timestamp f) = List.length (hybrid_ms f))
    by (unfold f, df_filtered; cbn [classic_ms hybrid_ms timestamp]; lia).
  assert (Hsel : forall ty other (l : list (string * float)),
             String.eqb other ty = false ->
             filter (fun r => String.eqb (melted_Type r) ty)
               (map (fun tv => {| melted_timestamp := fst tv;
                                  melted_Type := other;
                                  melted_Latence := snd tv |}) l) = []).
  { intros ty other l Hne. induction l as [| x l IH]; simpl.
    - reflexivity.
    - now rewrite Hne. }
  assert (Hkeep : forall ty (l : list (string * float)),
             filter (fun r => String.eqb (melted_Type r) ty)
               (map (fun tv => {| melted_timestamp := fst tv;
                                  melted_Type := ty;
                                  melted_Latence := snd tv |}) l) =
             map (fun tv => {| melted_timestamp := fst tv;
                               melted_Type := ty;
                               melted_Latence := snd tv |}) l).
  { intros ty l. induction l as [| x l IH]; simpl.
    - reflexivity.
    - rewrite String.eqb_refl. now rewrite IH. }
  unfold of_type, df_melted. fold f.
  rewrite !filter_app, !Hkeep.
  rewrite (Hsel "Classique" "Hybride") by reflexivity.
  rewrite (Hsel "Hybride" "Classique") by reflexivity.
  rewrite app_nil_r. cbn [app].
  rewrite length_app, !length_map, !length_combine, !map_map. cbn [melted_Latence melted_timestamp].
  rewrite !map_snd_combine, !map_fst_combine by assumption.
  unfold len_df. repeat split. lia.
Qed.

Lemma melt_round_trip_witness :
  List.length (df_melted frame_with_outliers) =
    2 * len_df (df_filtered frame_with_outliers) /\
  map melted_Latence
    (filter (fun r => String.eqb (melted_Type r) "Classique")
       (df_melted frame_with_outliers)) =
    classic_ms (df_filtered frame_with_outliers) /\
  map melted_Latence
    (filter (fun r => String.eqb (melted_Type r) "Hybride")
       (df_melted frame_with_outliers)) =
    hybrid_ms (df_filtered frame_with_outliers) /\
  map melted_timestamp
    (filter (fun r => String.eqb (melted_Type r) "Classique")
       (df_melted frame_with_outliers)) =
    timestamp (df_filtered frame_with_outliers) /\
  map melted_timestamp
    (filter (fun r => String.eqb (melted_Type r) "Hybride")
       (df_melted frame_with_outliers)) =
    timestamp (df_filtered frame_with_outliers).
Proof.
  apply (melt_round_trip frame_with_outliers).
  split; reflexivity.
Defined.

Example plot_filter_leaves_scenario :
  df_filtered scenario_frame = scenario_frame.
Proof. reflexivity. Qed.

(** ** The line of interpretation of the report *)

(** Comparing two finite values of one sign the other way round. *)
Lemma SFcompare_finite_antisym (s : bool) (m m' : positive) (e e' : Z) :
  SFcompare (S754_finite s m' e') (S754_finite s m e) =
  option_map CompOpp (SFcompare (S754_finite s m e) (S754_finite s m' e')).
Proof.
  cbn [SFcompare option_map]. rewrite (Z.compare_antisym e e').
  destruct s; destruct (e ?= e')%Z; cbn [CompOpp]; try reflexivity.
  - f_equal. rewrite !Pos.compare_cont_antisym. reflexivity.
  - f_equal. rewrite Pos.compare_cont_antisym. reflexivity.
Qed.

(** Comparing two negative values is comparing their magnitudes the
    other way round. *)
Lemma SFcompare_finite_negative (m m' : positive) (e e' : Z) :
  SFcompare (S754_finite true m e) (S754_finite true m' e') =
  option_map CompOpp
    (SFcompare (S754_finite false m e) (S754_finite false m' e')).
Proof.
  cbn [SFcompare option_map].
  destruct (e ?= e')%Z; reflexivity.
Qed.

Lemma float_of_SF (x y : float) : Prim2SF x = Prim2SF y -> x = y.
Proof.
  intros H.
  rewrite <- (FloatAxioms.SF2Prim_Prim2SF x), <- (FloatAxioms.SF2Prim_Prim2SF y).
  now rewrite H.
Qed.

Lemma isnan_SF (x : float) : isnan x = true <-> Prim2SF x = S754_nan.
Proof.
  unfold isnan. rewrite FloatAxioms.eqb_spec. unfold SFeqb.
  destruct (Prim2SF x) as [s | s | | s m e].
  - cbn. intuition discriminate.
  - destruct s; cbn; intuition discriminate.
  - cbn. intuition.
  - rewrite SFcompare_refl_finite. cbn. intuition discriminate.
Qed.

Lemma SFcompare_finite_some (s s' : bool) (m m' : positive) (e e' : Z) :
  exists c, SFcompare (S754_finite s m e) (S754_finite s' m' e') = Some c.
Proof. cbn [SFcompare]. eexists. reflexivity. Qed.

(** The three cases of the interpretation, for a bound [b] that is a
    positive finite number. *)
Lemma SF_within_bound (D : spec_float) (mb : positive) (eb : Z) :
  SFltb (SFabs D) (S754_finite false mb eb) = true ->
  SFltb (S754_finite true mb eb) D = true /\
  SFltb D (S754_finite false mb eb) = true.
Proof.
  unfold SFltb. destruct D as [sg | sg | | sg m e]; cbn [SFabs].
  - intros _. split; reflexivity.
  - intros H. discriminate.
  - intros H. discriminate.
  - destruct sg.
    + rewrite (SFcompare_finite_negative mb m eb e),
        (SFcompare_finite_antisym false m mb e eb).
      destruct (SFcompare_finite_some false false m mb e eb) as [c ->].
      destruct c; cbn; intros H; try discriminate; split; reflexivity.
    + intros H. split; [reflexivity | exact H].
Qed.

Lemma SF_above_bound (D : spec_float) (mb : positive) (eb : Z) :
  SFltb (SFabs D) (S754_finite false mb eb) = false ->
  SFltb (S754_zero false) D = true ->
  SFleb (S754_finite false mb eb) D = true.
Proof.
  unfold SFltb, SFleb. destruct D as [sg | sg | | sg m e]; cbn [SFabs].
  - intros H. discriminate.
  - destruct sg; intros _ H; [discriminate | reflexivity].
  - intros _ H. discriminate.
  - destruct sg; [intros _ H; discriminate |].
    rewrite (SFcompare_finite_antisym false m mb e eb).
    destruct (SFcompare_finite_some false false m mb e eb) as [c ->].
    destruct c; cbn; intros H _; try discriminate; reflexivity.
Qed.

Lemma SF_below_bound (D : spec_float) (mb : positive) (eb : Z) :
  SFltb (SFabs D) (S754_finite false mb eb) = false ->
  SFltb (S754_zero false) D = false ->
  SFleb D (S754_finite true mb eb) = true \/ D = S754_nan.
Proof.
  unfold SFltb, SFleb. destruct D as [sg | sg | | sg m e]; cbn [SFabs].
  - intros H. discriminate.
  - destruct sg; intros _ H; [left; reflexivity | discriminate].
  - intros _ _. right. reflexivity.
  - destruct sg; [| intros _ H; discriminate].
    rewrite (SFcompare_finite_negative m mb e eb).
    destruct (SFcompare_finite_some false false m mb e eb) as [c ->].
    destruct c; cbn; intros H _; try discriminate; left; reflexivity.
Qed.

(** X11.  The report says "no significant impact" exactly for a
    [delta_percent] strictly between -5 and 5, "degradation" (with the
    value) exactly from 5 upwards, infinity included, and "improvement"
    (with the magnitude) from -5 downwards; a [delta_percent] that is NaN
    is reported as an improvement. *)
Theorem interpretation_thresholds (s : Summary) :
  match interpretation s with
  | NoSignificantImpact =>
      (-5 <? delta_percent s)%float = true /\
      (delta_percent s <? 5)%float = true
  | PerformanceDegradation percent =>
      percent = delta_percent s /\
      (5 <=? delta_percent s)%float = true
  | PerformanceImprovement percent =>
      percent = abs (delta_percent s) /\
      ((delta_percent s <=? -5)%float = true \/
       isnan (delta_percent s) = true)
  end.
Proof.
  unfold interpretation. generalize (delta_percent s). intros d.
  assert (B5 : Prim2SF 5%float = S754_finite false 5629499534213120 (-50))
    by (vm_compute; reflexivity).
  assert (N5 : Prim2SF (-5)%float = S754_finite true 5629499534213120 (-50))
    by (vm_compute; reflexivity).
  assert (Z0 : Prim2SF 0%float = S754_zero false)
    by (vm_compute; reflexivity).
  destruct (abs d <? 5)%float eqn:H1.
  - rewrite FloatAxioms.ltb_spec, FloatAxioms.abs_spec, B5 in H1.
    rewrite !FloatAxioms.ltb_spec, B5, N5.
    apply SF_within_bound. exact H1.
  - rewrite FloatAxioms.ltb_spec, FloatAxioms.abs_spec, B5 in H1.
    destruct (0 <? d)%float eqn:H2;
      rewrite FloatAxioms.ltb_spec, Z0 in H2;
      (split; [reflexivity |]).
    + rewrite FloatAxioms.leb_spec, B5.
      apply SF_above_bound; assumption.
    + destruct (SF_below_bound (Prim2SF d) _ _ H1 H2) as [H | H].
      * left. rewrite FloatAxioms.leb_spec, N5. exact H.
      * right. apply isnan_SF. exact H.
Qed.

(** ** Degenerate baselines, from the analysis to the report *)

Lemma not_finite_cases (d : float) :
  isfinite d = false -> d = infinity \/ d = neg_infinity \/ d = nan.
Proof.
  intros H. apply isfinite_false_iff in H.
  destruct (Prim2SF d) as [s | s | | s m e] eqn:HD; try contradiction.
  - destruct s; [right; left | left]; apply float_of_SF; rewrite HD; reflexivity.
  - right. right. apply float_of_SF. rewrite HD. reflexivity.
Qed.

Lemma div_by_nan (x b : float) : isnan b = true -> (x / b)%float = nan.
Proof.
  intros H. apply isnan_SF in H. apply float_of_SF.
  rewrite FloatAxioms.div_spec, H. unfold SF64div, SFdiv.
  destruct (Prim2SF x); reflexivity.
Qed.

Lemma filter_all_nan (xs : list float) :
  Forall (fun x => isnan x = true) xs ->
  filter (fun x => negb (isnan x)) xs = [].
Proof.
  induction 1 as [| x xs Hx _ IH]; simpl.
  - reflexivity.
  - now rewrite Hx.
Qed.

(** X12.  The analysis does not refuse a frame whose classic column
    holds no number (an empty frame, or only NaN): it returns, the
    classic mean and [delta_percent] it reports are NaN, and the report
    built from it announces an improvement of NaN percent. *)
Theorem no_baseline_value_gives_nan
  (Stats : Type) (describe : list float -> list float -> Stats)
  (env : Env) (self : self_t) (df : DataFrame) (w : World) :
  Forall (fun x => isnan x = true) (classic_ms df) ->
  exists a w',
    analyze_results env Stats describe self df w = (Ok a, w') /\
    classic_mean_ms (summary a) = nan /\
    delta_percent (summary a) = nan /\
    sample_size (summary a) = len_df df /\
    report_interpretation (_generate_markdown_report a) =
      PerformanceImprovement nan.
Proof.
  intros H. do 2 eexists. split; [reflexivity |].
  assert (Hm : series_mean (classic_ms df) = nan).
  { unfold series_mean. rewrite (filter_all_nan _ H). reflexivity. }
  unfold _generate_markdown_report, interpretation.
  cbn [summary classic_mean_ms delta_percent sample_size
       report_interpretation].
  rewrite div_by_nan by (rewrite Hm; reflexivity).
  rewrite Hm. repeat split.
Qed.

Lemma no_baseline_value_gives_nan_witness :
  exists a w',
    analyze_results one_of_one unit no_table example_self empty_frame
      initial_world = (Ok a, w') /\
    classic_mean_ms (summary a) = nan /\
    delta_percent (summary a) = nan /\
    sample_size (summary a) = len_df empty_frame /\
    report_interpretation (_generate_markdown_report a) =
      PerformanceImprovement nan.
Proof.
  apply (no_baseline_value_gives_nan unit no_table one_of_one example_self
           empty_frame initial_world).
  constructor.
Defined.

(** X13.  For a baseline of mean zero the report never says "no
    significant impact": the [delta_percent] of the analysis being an
    infinity or NaN, it announces a degradation of infinity percent, or
    an improvement of infinity or NaN percent. *)
Theorem zero_baseline_report
  (Stats : Type) (describe : list float -> list float -> Stats)
  (env : Env) (self : self_t) (df : DataFrame) (w : World) :
  (series_mean (classic_ms df) =? 0)%float = true ->
  exists a w',
    analyze_results env Stats describe self df w = (Ok a, w') /\
    (report_interpretation (_generate_markdown_report a) =
       PerformanceDegradation infinity \/
     report_interpretation (_generate_markdown_report a) =
       PerformanceImprovement infinity \/
     report_interpretation (_generate_markdown_report a) =
       PerformanceImprovement nan).
Proof.
  intros H. do 2 eexists. split; [reflexivity |].
  unfold _generate_markdown_report. cbn [report_interpretation summary].
  unfold interpretation. cbn [delta_percent].
  assert (Hd : isfinite
                 (round2 (100 * (series_mean (hybrid_ms df) -
                                 series_mean (classic_ms df)) /
                          series_mean (classic_ms df))%float) = false)
    by (apply round2_not_finite, div_zero_not_finite, H).
  destruct (not_finite_cases _ Hd) as [-> | [-> | ->]]; cbn; auto.
Qed.

Lemma zero_baseline_report_witness :
  exists a w',
    analyze_results one_of_one unit no_table example_self
      zero_baseline_frame initial_world = (Ok a, w') /\
    (report_interpretation (_generate_markdown_report a) =
       PerformanceDegradation infinity \/
     report_interpretation (_generate_markdown_report a) =
       PerformanceImprovement infinity \/
     report_interpretation (_generate_markdown_report a) =
       PerformanceImprovement nan).
Proof.
  apply (zero_baseline_report unit no_table one_of_one example_self
           zero_baseline_frame initial_world).
  reflexivity.
Defined.

(** ** A configuration against itself *)

Lemma finite_SF (m : float) :
  isfinite m = true ->
  match Prim2SF m with
  | S754_zero _ | S754_finite _ _ _ => True
  | _ => False
  end.
Proof.
  intros H. pose proof (isfinite_false_iff m) as Hf.
  destruct (Prim2SF m); try exact I;
    (assert (isfinite m = false) by (apply Hf; exact I); congruence).
Qed.

Lemma sub_self_finite (m : float) :
  isfinite m = true -> (m - m)%float = 0%float.
Proof.
  intros H. apply finite_SF in H. apply float_of_SF.
  rewrite FloatAxioms.sub_spec. unfold SF64sub, SFsub.
  destruct (Prim2SF m) as [s | s | | s mm e]; try contradiction.
  - now destruct s.
  - cbv zeta. rewrite Z.sub_diag. reflexivity.
Qed.

Lemma zero_div_finite (m : float) :
  isfinite m = true -> (m =? 0)%float = false ->
  (0 / m)%float = 0%float \/ (0 / m)%float = (-0)%float.
Proof.
  intros H H0. apply finite_SF in H.
  rewrite FloatAxioms.eqb_spec in H0.
  change (Prim2SF 0%float) with (S754_zero false) in H0.
  destruct (Prim2SF m) as [s | s | | s mm e] eqn:HM; try contradiction.
  - discriminate.
  - destruct s; [right | left]; apply float_of_SF;
      rewrite FloatAxioms.div_spec, HM; reflexivity.
Qed.

(** X14.  A frame whose two columns are the same, with a mean that is
    finite and not zero, is analysed to a [delta_percent] of zero, and
    reported as "no significant impact". *)
Theorem same_columns_give_zero_delta
  (Stats : Type) (describe : list float -> list float -> Stats)
  (env : Env) (self : self_t) (df : DataFrame) (w : World) :
  classic_ms df = hybrid_ms df ->
  isfinite (series_mean (classic_ms df)) = true ->
  (series_mean (classic_ms df) =? 0)%float = false ->
  exists a w',
    analyze_results env Stats describe self df w = (Ok a, w') /\
    (delta_percent (summary a) =? 0)%float = true /\
    classic_mean_ms (summary a) = hybrid_mean_ms (summary a) /\
    report_interpretation (_generate_markdown_report a) = NoSignificantImpact.
Proof.
  intros Hsame Hfin Hnz. do 2 eexists. split; [reflexivity |].
  unfold _generate_markdown_report, interpretation.
  cbn [summary delta_percent classic_mean_ms hybrid_mean_ms report_interpretation].
  rewrite <- Hsame. rewrite (sub_self_finite _ Hfin).
  change (100 * 0)%float with 0%float.
  destruct (zero_div_finite _ Hfin Hnz) as [-> | ->]; repeat split.
Qed.

Lemma same_columns_give_zero_delta_witness :
  exists a w',
    analyze_results one_of_one unit no_table example_self
      same_columns_frame initial_world = (Ok a, w') /\
    (delta_percent (summary a) =? 0)%float = true /\
    classic_mean_ms (summary a) = hybrid_mean_ms (summary a) /\
    report_interpretation (_generate_markdown_report a) = NoSignificantImpact.
Proof.
  apply (same_columns_give_zero_delta unit no_table one_of_one example_self
           same_columns_frame initial_world); reflexivity.
Defined.

(** ** The command line *)

Lemma run_benchmark_ok_rows
  (env : Env) (self : self_t) (iterations : Z) (w w' : World) (df : DataFrame) :
  run_benchmark env self iterations w = (Ok df, w') -> 1 <= len_df df.
Proof.
  intros Hrun.
  pose proof (run_benchmark_ok_crash_free env self iterations w df w' Hrun)
    as Hcf.
  pose proof (run_benchmark_crash_free env self iterations w Hcf) as Hspec.
  cbv zeta in Hspec. rewrite Hrun in Hspec.
  destruct (Nat.min _ _ =? 0)%nat eqn:Hk; [discriminate |].
  apply Nat.eqb_neq in Hk. injection Hspec as -> _.
  unfold len_df. cbn [classic_ms]. rewrite length_firstn. lia.
Qed.

Section MainProperties.

Variable os : OS.
Variable env : Env.
Variable Stats : Type.
Variable describe : list float -> list float -> Stats.
Variable save_results :
  TLSBenchmark_t -> DataFrame -> Analysis Stats -> M dict.

(** X15.  When no executable is given on the command line (or an empty
    one) and none of the three candidates exists, [main] logs the
    [RuntimeError] of the search and returns 1; nothing has been spawned,
    waited for or logged by the harness. *)
Theorem main_without_openssl (args : Args) (w : World) :
  path_mkdir os (arg_output args) = None ->
  arg_openssl args = None \/ arg_openssl args = Some ""%string ->
  Forall (fun p => os_path_exists os p = false) (possible_paths os) ->
  main os env Stats describe save_results args w =
  (Ok {| exit_status := 1;
         logged_error :=
           Some (RuntimeError
                   "OpenSSL non trouvé. Veuillez spécifier le chemin.");
         printed := None |}, w).
Proof.
  intros Hmk Hnone Hmiss.
  assert (Hfind : find (os_path_exists os) (possible_paths os) = None).
  { pose proof (find_first (os_path_exists os) (possible_paths os)) as Hf.
    destruct (find (os_path_exists os) (possible_paths os)) as [x |];
      [| reflexivity].
    destruct Hf as (Hx & before & after & Hl & _).
    rewrite Forall_forall in Hmiss.
    rewrite (Hmiss x) in Hx; [discriminate |].
    rewrite Hl. apply in_or_app. right. left. reflexivity. }
  unfold main, __init__, _find_openssl. rewrite Hmk, Hfind.
  destruct Hnone as [-> | ->]; reflexivity.
Qed.

(** X16.  When the object is built and a pass of the run ends without
    any valid latency (no attempt raising past the harness), [main] logs
    [RuntimeError("Aucune mesure valide obtenue")] and returns 1; nothing
    is analysed, saved or printed: the world is left as [run_benchmark]
    left it. *)
Theorem main_without_sample (args : Args) (w : World) (b : TLSBenchmark_t) :
  let n := Z.to_nat (arg_iterations args) in
  __init__ os (arg_openssl args) (arg_target args) (arg_output args) = Ok b ->
  crash_free env (spawned w) (n + n) = true ->
  valid_latencies env (spawned w) n = [] \/
  valid_latencies env (spawned w + n) n = [] ->
  main os env Stats describe save_results args w =
  (Ok {| exit_status := 1;
         logged_error := Some (RuntimeError "Aucune mesure valide obtenue");
         printed := None |},
   {| spawned := spawned w + n + n;
      clock_reads := clock_reads w;
      trace := trace w ++
               run_events env (self_harness b) (arg_iterations args)
                 (spawned w) |}).
Proof.
  intros n Hinit Hcf Hempty.
  pose proof (run_benchmark_crash_free env (self_harness b)
                (arg_iterations args) w Hcf) as Hrun.
  cbv zeta in Hrun. fold n in Hrun.
  assert (Hm : (Nat.min
                  (List.length (valid_latencies env (spawned w) n))
                  (List.length (valid_latencies env (spawned w + n) n))
                =? 0)%nat = true).
  { apply Nat.eqb_eq. destruct Hempty as [-> | ->]; simpl; lia. }
  rewrite Hm in Hrun.
  unfold main. rewrite Hinit.
  erewrite bind_raise by exact Hrun. reflexivity.
Qed.

(** X17.  Whatever happens, [main] lets no exception that derives from
    [Exception] through.  It returns 0 only after the object was built,
    the run returned a frame of at least one row, the frame was analysed
    and [save_results] returned; it then prints the summary of that
    analysis and the files.  Otherwise it returns 1, with the exception
    logged and nothing printed. *)
Theorem main_outcomes (args : Args) (w : World) :
  match main os env Stats describe save_results args w with
  | (Ok o, w') =>
      (exit_status o = 0%Z /\ logged_error o = None /\
       exists b df a w1 files,
         __init__ os (arg_openssl args) (arg_target args) (arg_output args)
           = Ok b /\
         main_measure env Stats describe (self_harness b)
           (arg_iterations args) w = (Ok (df, a), w1) /\
         save_results b df a w1 = (Ok files, w') /\
         printed o = Some (summary a, files) /\
         1 <= sample_size (summary a)) \/
      (exit_status o = 1%Z /\ printed o = None /\
       exists e, logged_error o = Some e /\ is_Exception e = true)
  | (Raise e, _) => is_Exception e = false
  end.
Proof.
  assert (Hexc : forall e w0,
             match main_except e w0 with
             | (Ok o, _) =>
                 exit_status o = 1%Z /\ printed o = None /\
                 exists e', logged_error o = Some e' /\ is_Exception e' = true
             | (Raise e', _) => is_Exception e' = false
             end).
  { intros e w0. unfold main_except.
    destruct (is_Exception e) eqn:He; cbn; eauto. }
  unfold main.
  destruct (__init__ os (arg_openssl args) (arg_target args) (arg_output args))
    as [b | e] eqn:Hinit.
  2: { specialize (Hexc e w). destruct (main_except e w) as [[o | e'] w'];
       [right |]; exact Hexc. }
  destruct (run_benchmark env (self_harness b) (arg_iterations args) w)
    as [[df | e] w1] eqn:Hrun.
  2: { erewrite bind_raise by exact Hrun.
       specialize (Hexc e w1). destruct (main_except e w1) as [[o | e'] w'];
       [right |]; exact Hexc. }
  erewrite bind_ok by exact Hrun.
  unfold analyze_results at 1. unfold bind at 1. unfold datetime_now at 1.
  unfold bind at 1. unfold ret at 1.
  match goal with
  | |- context [bind (save_results b df ?a) _ ?w2] =>
      set (an := a); set (w2' := w2)
  end.
  unfold bind.
  destruct (save_results b df an w2') as [[files | e] w3] eqn:Hsave.
  2: { specialize (Hexc e w3). destruct (main_except e w3) as [[o | e'] w'];
       [right |]; exact Hexc. }
  unfold ret. left. cbn [exit_status logged_error printed].
  split; [reflexivity |]. split; [reflexivity |].
  exists b, df, an, w2', files.
  split; [reflexivity |].
  split.
  - unfold main_measure. erewrite bind_ok by exact Hrun.
    unfold analyze_results, bind, datetime_now, ret. reflexivity.
  - split; [exact Hsave |]. split; [reflexivity |].
    subst an. cbn [summary sample_size].
    eapply run_benchmark_ok_rows. exact Hrun.
Qed.

End MainProperties.

Lemma main_without_openssl_witness :
  main os_without_openssl two_timeouts_in_five unit no_table save_nothing
    example_args initial_world =
  (Ok {| exit_status := 1;
         logged_error :=
           Some (RuntimeError
                   "OpenSSL non trouvé. Veuillez spécifier le chemin.");
         printed := None |}, initial_world).
Proof.
  apply (main_without_openssl os_without_openssl two_timeouts_in_five unit
           no_table save_nothing example_args initial_world).
  - reflexivity.
  - left. reflexivity.
  - repeat constructor.
Defined.

Lemma main_without_sample_witness :
  main example_os classic_pass_fails unit no_table save_nothing
    example_args initial_world =
  (Ok {| exit_status := 1;
         logged_error := Some (RuntimeError "Aucune mesure valide obtenue");
         printed := None |},
   {| spawned := 0 + Z.to_nat 2 + Z.to_nat 2;
      clock_reads := 0;
      trace := [] ++
               run_events classic_pass_fails (self_harness example_object)
                 2 0 |}).
Proof.
  apply (main_without_sample example_os classic_pass_fails unit no_table
           save_nothing example_args initial_world example_object).
  - reflexivity.
  - reflexivity.
  - left. reflexivity.
Defined.

(** A run that succeeds, from the command line to the exit status. *)
Example main_succeeds :
  fst (main example_os one_of_two unit no_table save_nothing example_args
         initial_world) =
  Ok {| exit_status := 0;
        logged_error := None;
        printed := Some ({| classic_mean_ms := 10%float;
                            hybrid_mean_ms := 15%float;
                            delta_percent := 50%float;
                            sample_size := 1 |}, []) |}.
Proof. vm_compute. reflexivity. Qed.

(** An interruption from the keyboard is not caught. *)
Example main_is_interrupted :
  fst (main example_os
         (env_of_outcomes [Failed (OtherException "KeyboardInterrupt")])
         unit no_table save_nothing example_args initial_world) =
  Raise (OtherException "KeyboardInterrupt").
Proof. vm_compute. reflexivity. Qed.

(** ** The fuel of the sum *)

(** Any fuel that covers the length beyond one block gives the same sum:
    the recursion of [pairwise_sum_rec] never runs out. *)
Lemma pairwise_sum_rec_fuel (f1 : nat) : forall (f2 : nat) (a : list float),
  List.length a <= f1 + 128 ->
  List.length a <= f2 + 128 ->
  pairwise_sum_rec f1 a = pairwise_sum_rec f2 a.
Proof.
  induction f1 as [| f1 IH]; intros f2 a H1 H2.
  - assert (E : (List.length a <=? 128)%nat = true)
      by (apply Nat.leb_le; lia).
    destruct f2; cbn [pairwise_sum_rec]; rewrite E; reflexivity.
  - destruct (List.length a <=? 128)%nat eqn:E.
    + destruct f2; cbn [pairwise_sum_rec]; rewrite E; reflexivity.
    + assert (E' : 128 < List.length a) by (apply Nat.leb_gt; exact E).
      destruct f2 as [| f2]; [lia |].
      cbn [pairwise_sum_rec]. rewrite E.
      set (n := List.length a) in *.
      pose proof (Nat.div_mod_eq n 2) as Hn.
      pose proof (Nat.mod_upper_bound n 2 ltac:(lia)) as Hm.
      pose proof (Nat.mod_upper_bound (n / 2) 8 ltac:(lia)) as Hm8.
      f_equal; apply IH;
        rewrite ?length_firstn, ?length_skipn; fold n; lia.
Qed.

(** ** The mean and the relative difference *)




(** From eight rows on the order of the sum shows: added from left to
    right the hybrid column would have the mean 35.887499999999996 and
    the report would say 3.12. *)
Example eight_rows_in_numpy_order :
  series_mean (classic_ms eight_row_frame) = 34.8%float /\
  series_mean (hybrid_ms eight_row_frame) = 35.8875%float /\
  (fold_left PrimFloat.add (hybrid_ms eight_row_frame) 0 / 8)%float =
    35.887499999999996%float /\
  exists a w',
    analyze_results one_of_one unit no_table example_self eight_row_frame
      initial_world = (Ok a, w') /\
    summary a = {| classic_mean_ms := 34.8%float;
                   hybrid_mean_ms := 35.89%float;
                   delta_percent := 3.13%float;
                   sample_size := 8 |}.
Proof.
  split; [reflexivity |]. split; [reflexivity |]. split; [reflexivity |].
  do 2 eexists. split; reflexivity.
Qed.
